(** * DocuQuery, [generate_pdf.py]: Markdown to PDF pipeline

    A shallow embedding of the pipeline
    [read_markdown_file] -> [convert_markdown_to_html] -> [create_pdf]
    and of the parts of the three libraries it drives (python-markdown,
    BeautifulSoup, fpdf2) that its behaviour depends on. *)

From Stdlib Require Import ZArith NArith Ascii String List.
From stdpp Require Import gmap strings list fin_maps.

Local Open Scope Z_scope.
Local Open Scope string_scope.
Local Open Scope list_scope.

(** ** Python text

    A Python [str] is a sequence of Unicode code points.  Tag names and
    paths are plain ASCII and stay Rocq strings. *)

Abbreviation str := (list N).

Definition py (s : string) : str :=
  List.map N_of_ascii (list_ascii_of_string s).

(** [str.isspace] on one character: the code points CPython classifies as
    whitespace. *)
Definition isspace (c : N) : bool :=
  ((9 <=? c) && (c <=? 13) || (28 <=? c) && (c <=? 32)
   || (c =? 133) || (c =? 160) || (c =? 5760)
   || (8192 <=? c) && (c <=? 8202)
   || (c =? 8232) || (c =? 8233) || (c =? 8239) || (c =? 8287)
   || (c =? 12288))%N.

Fixpoint lstrip (s : str) : str :=
  match s with
  | c :: s' => if isspace c then lstrip s' else s
  | [] => []
  end.

Definition rstrip (s : str) : str := rev (lstrip (rev s)).

(** [str.strip()] with no argument. *)
Definition strip (s : str) : str := rstrip (lstrip s).

(** ** BeautifulSoup trees

    [Tag] is an element with its children, [NavigableString] a text node,
    [Comment] stands for the string kinds [get_text] leaves out. *)

#[warnings="-register-all"]
Inductive node : Type :=
| NavigableString (s : str)
| Comment (s : str)
| Tag (name : string) (contents : list node).

Definition name_of (n : node) : string :=
  match n with
  | Tag name _ => name
  | _ => ""
  end.

Definition is_tag (n : node) : bool :=
  match n with
  | Tag _ _ => true
  | _ => false
  end.

(** [Tag.descendants]: every node below [n], parents before children,
    siblings left to right. *)
Fixpoint descendants (n : node) : list node :=
  match n with
  | Tag _ contents => flat_map (fun c => c :: descendants c) contents
  | _ => []
  end.

(** [Tag.get_text()]: the text nodes below [n], concatenated. *)
Fixpoint get_text (n : node) : str :=
  match n with
  | NavigableString s => s
  | Comment _ => []
  | Tag _ contents => flat_map get_text contents
  end.

Definition name_in (names : list string) (n : node) : bool :=
  is_tag n && existsb (String.eqb (name_of n)) names.

(** [Tag.find_all(names)]: the descendants that are tags named in [names]. *)
Definition find_all (names : list string) (soup : node) : list node :=
  List.filter (name_in names) (descendants soup).

(** ** The fpdf2 document object

    The drawing calls are recorded in the order they are issued.  A cell
    records the font that is current when it is drawn. *)

Inductive XPos := XLEFT | XRIGHT | XLMARGIN | XRMARGIN.
Inductive YPos := YTOP | YNEXT.

Inductive op : Type :=
| AddPage
| SetFont (family : string) (size : Z)
| Ln (h : Z)
| Cell (w h : Z) (text : str) (new_x : XPos) (new_y : YPos)
       (family : string) (size : Z)
| MultiCell (w h : Z) (text : str) (family : string) (size : Z).

Record FPDF : Type := mkFPDF {
  fonts : gmap string N;      (* family -> embedded font face *)
  page : nat;                 (* number of the current page, 0 = none *)
  font_family : string;
  font_size_pt : Z;
  canvas : list op
}.

(** Contents of a file, as far as the pipeline can tell them apart. *)
Inductive file : Type :=
| Utf8 (text : str)           (* bytes that decode as UTF-8 to [text] *)
| Blob                        (* bytes that are not valid UTF-8 *)
| TrueType (face : N)         (* a loadable font file *)
| Pdf (doc : FPDF).           (* a document serialised by [output] *)

Record world : Type := mkWorld {
  files : gmap string file;
  unreadable : gset string;   (* open(path, 'r') is refused *)
  unwritable : gset string;   (* open(path, 'wb') is refused *)
  stdout : list string
}.

(** The exceptions that can end a run:
    - [FileAccessError]: the [OSError] of [open] in [read_markdown_file];
    - [DecodingError]: the [UnicodeDecodeError] of [file.read];
    - [FontLoadError]: [add_font] cannot load the font file;
    - [ParserRejectedMarkup]: [BeautifulSoup] gives up on the markup;
    - [RenderError]: [output] cannot write the destination;
    - [FPDFException]: a drawing call with no page open or no usable font. *)
Inductive error : Type :=
| FileAccessError
| DecodingError
| FontLoadError
| ParserRejectedMarkup
| RenderError
| FPDFException.

Inductive result (A : Type) : Type :=
| Ok (a : A)
| Raise (e : error).
Arguments Ok {A} a.
Arguments Raise {A} e.

#[export] Instance result_ret : MRet result := fun A a => Ok a.
#[export] Instance result_bind : MBind result := fun A B k m =>
  match m with
  | Ok a => k a
  | Raise e => Raise e
  end.

(** Code that runs against the file system: the world comes back also when
    an exception is raised. *)
Definition IO (A : Type) : Type := world -> result A * world.

Definition io_bind {A B} (m : IO A) (k : A -> IO B) : IO B := fun w =>
  match m w with
  | (Ok a, w') => k a w'
  | (Raise e, w') => (Raise e, w')
  end.

Definition io_lift {A} (r : result A) : IO A := fun w => (r, w).

Notation "'let*' x ':=' m 'in' k" := (io_bind m (fun x => k))
  (at level 10, x name, m at level 200, k at level 200).

Definition FPDF_init : FPDF :=
  {| fonts := ∅; page := 0; font_family := ""; font_size_pt := 12;
     canvas := [] |}.

Definition core_fonts : list string :=
  ["courier"; "helvetica"; "times"; "symbol"; "zapfdingbats"].

Definition draw (o : op) (pdf : FPDF) : FPDF :=
  {| fonts := fonts pdf; page := page pdf; font_family := font_family pdf;
     font_size_pt := font_size_pt pdf; canvas := canvas pdf ++ [o] |}.

Definition turn_pages (n : nat) (pdf : FPDF) : FPDF :=
  {| fonts := fonts pdf; page := (page pdf + n)%nat;
     font_family := font_family pdf; font_size_pt := font_size_pt pdf;
     canvas := canvas pdf |}.

(** [FPDF.add_font(family, '', fname)]: reads the font file. *)
Definition add_font (family fname : string) (pdf : FPDF) : IO FPDF := fun w =>
  match files w !! fname with
  | Some (TrueType face) =>
      if bool_decide (fname ∈ unreadable w) then (Raise FontLoadError, w)
      else (Ok {| fonts := <[family := face]> (fonts pdf); page := page pdf;
                  font_family := font_family pdf;
                  font_size_pt := font_size_pt pdf; canvas := canvas pdf |}, w)
  | _ => (Raise FontLoadError, w)
  end.

(** [FPDF.add_page()]. *)
Definition add_page (pdf : FPDF) : FPDF := draw AddPage (turn_pages 1 pdf).

(** [FPDF.set_font(family, size=size)]: the family must be a core font or
    one registered by [add_font]. *)
Definition set_font (family : string) (size : Z) (pdf : FPDF) : result FPDF :=
  if existsb (String.eqb family) core_fonts
     || bool_decide (is_Some (fonts pdf !! family))
  then Ok (draw (SetFont family size)
             {| fonts := fonts pdf; page := page pdf; font_family := family;
                font_size_pt := size; canvas := canvas pdf |})
  else Raise FPDFException.

(** [FPDF.ln(h)]. *)
Definition ln (h : Z) (pdf : FPDF) : FPDF := draw (Ln h) pdf.

Definition can_draw (pdf : FPDF) : bool :=
  negb (page pdf =? 0)%nat && negb (String.eqb (font_family pdf) "").

(** [FPDF.output(path)]: the only call that touches the destination.  A
    document without a page gets one before it is serialised. *)
Definition output (path : string) (pdf : FPDF) : IO unit := fun w =>
  if bool_decide (path ∈ unwritable w) then (Raise RenderError, w)
  else (Ok tt,
        {| files := <[path := Pdf (if (page pdf =? 0)%nat then add_page pdf
                                   else pdf)]> (files w);
           unreadable := unreadable w; unwritable := unwritable w;
           stdout := stdout w |}).

(** [print(line)]. *)
Definition print (line : string) : IO unit := fun w =>
  (Ok tt, {| files := files w; unreadable := unreadable w;
             unwritable := unwritable w; stdout := stdout w ++ [line] |}).

Definition font_path : string :=
  "/System/Library/Fonts/Supplemental/Arial Unicode.ttf".

(** The three characters of the literal drawn in front of a list item. *)
Definition bullet : str := [226; 8364; 162]%N.

(** [read_markdown_file]. *)
Definition read_markdown_file (file_path : string) : IO str := fun w =>
  match files w !! file_path with
  | None => (Raise FileAccessError, w)
  | Some f =>
      if bool_decide (file_path ∈ unreadable w)
      then (Raise FileAccessError, w)
      else match f with
           | Utf8 text => (Ok text, w)
           | _ => (Raise DecodingError, w)
           end
  end.

(** [PDF()]: the subclass constructor. *)
Definition PDF : IO FPDF := add_font "DejaVu" font_path FPDF_init.

(** ** Library calls from run to run

    Within one run each library call returns one result: a [library]
    holds what the three calls return in a run.  From one run to the next
    the results may differ: a [behaviour] says which results a call may
    return. *)


Record behaviour : Type := mkBehaviour {
  may_render : str -> str -> Prop;
  may_parse : str -> option node -> Prop;
  may_break : FPDF -> Z -> str -> nat -> Prop
}.



(** ** Stand-ins for the library entry points

    The program is verified for every Markdown renderer, HTML parser and
    page-break policy.  To run it on concrete inputs this module gives one
    of each: a renderer for ATX headings, paragraphs and dash lists, a
    parser for tags without attributes that gives up on a marked section,
    and a policy that breaks the page once per 2000 characters of a cell. *)
Module Reference.

Definition name_of_str (s : str) : string :=
  string_of_list_ascii (List.map ascii_of_N s).

Inductive token : Type :=
| StartTag (name : string)
| EndTag (name : string)
| Data (s : str).

Definition data_token (acc : str) : list token :=
  match acc with
  | [] => []
  | _ => [Data (rev acc)]
  end.

Definition tag_token (body : str) : token :=
  match body with
  | 47%N :: name => EndTag (name_of_str name)
  | _ => StartTag (name_of_str body)
  end.

(** [in_tag] tells whether the scan is between [<] and [>]; [acc] holds
    the characters read since the last token, newest first. *)
Fixpoint tokenize (in_tag : bool) (acc : str) (s : str) : list token :=
  match s with
  | [] => if in_tag then data_token (acc ++ [60%N]) else data_token acc
  | c :: s' =>
      if in_tag then
        if (c =? 62)%N then tag_token (rev acc) :: tokenize false [] s'
        else tokenize true (c :: acc) s'
      else
        if (c =? 60)%N then data_token acc ++ tokenize true [] s'
        else tokenize false (c :: acc) s'
  end.

(** A frame is an open tag with the siblings read before it, newest
    first. *)
Fixpoint pop_to (name : string) (cur : list node)
    (stack : list (string * list node))
    : list node * list (string * list node) :=
  match stack with
  | [] => (cur, [])
  | (open, before) :: stack' =>
      let cur' := Tag open (rev cur) :: before in
      if String.eqb open name then (cur', stack') else pop_to name cur' stack'
  end.

(** At the end of the input every open tag is closed. *)
Fixpoint close_all (cur : list node) (stack : list (string * list node))
    : list node :=
  match stack with
  | [] => rev cur
  | (open, before) :: stack' => close_all (Tag open (rev cur) :: before) stack'
  end.

Fixpoint build (tokens : list token) (cur : list node)
    (stack : list (string * list node)) : list node :=
  match tokens with
  | [] => close_all cur stack
  | Data s :: rest => build rest (NavigableString s :: cur) stack
  | StartTag name :: rest => build rest [] ((name, cur) :: stack)
  | EndTag name :: rest =>
      if existsb (fun f => String.eqb (fst f) name) stack
      then let '(cur', stack') := pop_to name cur stack in
           build rest cur' stack'
      else build rest cur stack
  end.

Definition html_parser (html : str) : node :=
  Tag "[document]" (build (tokenize false [] html) [] []).

(** Whether [s] holds the opening of a marked section. *)
Fixpoint marked_section (s : str) : bool :=
  match s with
  | [] => false
  | c :: s' =>
      match c, s' with
      | 60%N, 33%N :: 91%N :: _ => true
      | _, _ => marked_section s'
      end
  end.

Definition BeautifulSoup (html : str) : option node :=
  if marked_section html then None else Some (html_parser html).

Inductive block : Type :=
| Blank
| Heading (level : string) (text : str)
| Paragraph (lines : list str)
| Bullets (items : list str).

Fixpoint split_lines (acc : str) (s : str) : list str :=
  match s with
  | [] => [rev acc]
  | c :: s' =>
      if (c =? 10)%N then rev acc :: split_lines [] s'
      else split_lines (c :: acc) s'
  end.

Definition add_line (line : str) (blocks : list block) : list block :=
  match line with
  | [] => Blank :: blocks
  | 35 :: 32 :: text => Heading "h1" text :: blocks
  | 35 :: 35 :: 32 :: text => Heading "h2" text :: blocks
  | 35 :: 35 :: 35 :: 32 :: text => Heading "h3" text :: blocks
  | 45 :: 32 :: item =>
      match blocks with
      | Bullets items :: blocks' => Bullets (item :: items) :: blocks'
      | _ => Bullets [item] :: blocks
      end
  | _ =>
      match blocks with
      | Paragraph lines :: blocks' => Paragraph (line :: lines) :: blocks'
      | _ => Paragraph [line] :: blocks
      end
  end%N.

Fixpoint join (sep : str) (parts : list str) : str :=
  match parts with
  | [] => []
  | [s] => s
  | s :: parts' => s ++ sep ++ join sep parts'
  end.

Definition render (b : block) : list str :=
  match b with
  | Blank => []
  | Heading level text =>
      [py ("<" +:+ level +:+ ">") ++ strip text ++ py ("</" +:+ level +:+ ">")]
  | Paragraph lines => [py "<p>" ++ join [10%N] lines ++ py "</p>"]
  | Bullets items =>
      [py "<ul>" ++ [10%N]
       ++ flat_map (fun item => py "<li>" ++ item ++ py "</li>" ++ [10%N]) items
       ++ py "</ul>"]
  end.

Definition markdown (text : str) : str :=
  join [10%N] (flat_map render (fold_right add_line [] (split_lines [] text))).

Definition page_breaks (pdf : FPDF) (h : Z) (text : str) : nat :=
  (length text / 2000)%nat.


Definition exact : behaviour :=
  {| may_render := fun s html => html = markdown s;
     may_parse := fun s r => r = BeautifulSoup s;
     may_break := fun d h text n => n = page_breaks d h text |}.

End Reference.

(** ** Reading the record of drawing calls

    A text block is a [multi_cell].  It carries the font it was drawn
    with, the line break issued immediately before it, and the cell drawn
    immediately before it (after that line break), if any. *)

Record text_block : Type := mkBlock {
  b_family : string;
  b_size : Z;
  b_spacing : option Z;
  b_prefix : option (Z * str);
  b_text : str
}.

Fixpoint blocks_from (spacing : option Z) (prefix : option (Z * str))
    (log : list op) : list text_block :=
  match log with
  | [] => []
  | Ln h :: log' => blocks_from (Some h) None log'
  | Cell w _ text _ _ _ _ :: log' => blocks_from spacing (Some (w, text)) log'
  | MultiCell _ _ text family size :: log' =>
      mkBlock family size spacing prefix text :: blocks_from None None log'
  | AddPage :: log' | SetFont _ _ :: log' => blocks_from None None log'
  end.

Definition blocks (log : list op) : list text_block :=
  blocks_from None None log.

(** ** The element kinds and the layout table of the specification

    These follow the specification, not the code: the code dispatches on
    tag names.  The theorems below relate the two. *)

Inductive kind : Type :=
| H1 | H2 | H3 | Paragraph | ListItem | InlineCode | CodeBlock.

Definition classify (name : string) : option kind :=
  if String.eqb name "h1" then Some H1
  else if String.eqb name "h2" then Some H2
  else if String.eqb name "h3" then Some H3
  else if String.eqb name "p" then Some Paragraph
  else if String.eqb name "li" then Some ListItem
  else if String.eqb name "code" then Some InlineCode
  else if String.eqb name "pre" then Some CodeBlock
  else None.

Definition is_code (k : kind) : bool :=
  match k with
  | InlineCode | CodeBlock => true
  | _ => false
  end.

Definition kind_size (k : kind) : Z :=
  match k with
  | H1 => 16
  | H2 => 14
  | H3 | Paragraph | ListItem => 12
  | InlineCode | CodeBlock => 10
  end.

Definition kind_spacing (k : kind) : Z :=
  match k with
  | H1 | H2 | H3 => 10
  | Paragraph => 5
  | ListItem => 2
  | InlineCode | CodeBlock => 5
  end.

Definition kind_line_height (k : kind) : Z :=
  if is_code k then 8 else 10.

(** The element record [{kind, text}] of a node, if its tag is on the
    allow-list. *)
Definition element_of (n : node) : option (kind * str) :=
  match n with
  | Tag name _ =>
      match classify name with
      | Some k => Some (k, strip (get_text n))
      | None => None
      end
  | _ => None
  end.

(** The drawing calls the layout table prescribes for one element. *)
Definition element_ops (n : node) : list op :=
  match element_of n with
  | Some (k, text) =>
      [SetFont "DejaVu" (kind_size k); Ln (kind_spacing k)]
      ++ match k with
         | ListItem => [Cell 5 10 bullet XRIGHT YTOP "DejaVu" (kind_size k)]
         | _ => []
         end
      ++ [MultiCell 0 (kind_line_height k) text "DejaVu" (kind_size k)]
  | None => []
  end.

(** The text block the layout table prescribes for one element record. *)
Definition table_block (e : kind * str) : text_block :=
  {| b_family := "DejaVu";
     b_size := kind_size (fst e);
     b_spacing := Some (kind_spacing (fst e));
     b_prefix := match fst e with
                 | ListItem => Some (5, bullet)
                 | _ => None
                 end;
     b_text := snd e |}.

(** Document order, written as a walk of the tree: an allow-listed tag
    comes first, then what its children yield, left to right. *)
Fixpoint document_order (n : node) : list (kind * str) :=
  match n with
  | Tag name contents =>
      match element_of n with
      | Some e => [e]
      | None => []
      end ++ flat_map document_order contents
  | _ => []
  end.

Definition contents_of (n : node) : list node :=
  match n with
  | Tag _ contents => contents
  | _ => []
  end.

Definition is_add_page (o : op) : bool :=
  match o with
  | AddPage => true
  | _ => false
  end.

Definition is_cell (o : op) : bool :=
  match o with
  | Cell _ _ _ _ _ _ _ => true
  | _ => false
  end.

(** The drawing calls issued between two states of a document. *)
Definition drawn_since (before after : FPDF) : list op :=
  drop (length (canvas before)) (canvas after).

(** The document a run left at [path], if it left one. *)
Definition written (path : string) (w : world) : option FPDF :=
  match files w !! path with
  | Some (Pdf doc) => Some doc
  | _ => None
  end.

(** ** Sample inputs *)
Module Samples.

Definition nl : str := [10%N].

Definition title_md : str :=
  py "# Title" ++ nl ++ nl ++ py "Some text." ++ nl ++ nl
  ++ py "- item one" ++ nl ++ py "- item two" ++ nl.

Definition title_html : str :=
  py "<h1>Title</h1>" ++ nl ++ py "<p>Some text.</p>" ++ nl
  ++ py "<ul>" ++ nl ++ py "<li>item one</li>" ++ nl
  ++ py "<li>item two</li>" ++ nl ++ py "</ul>".

Definition title_soup : node :=
  Tag "[document]"
    [Tag "h1" [NavigableString (py "Title")];
     NavigableString nl;
     Tag "p" [NavigableString (py "Some text.")];
     NavigableString nl;
     Tag "ul"
       [NavigableString nl;
        Tag "li" [NavigableString (py "item one")];
        NavigableString nl;
        Tag "li" [NavigableString (py "item two")];
        NavigableString nl]].

(** What an indented code block is rendered to. *)
Definition code_html : str :=
  py "<pre><code>print(1)" ++ nl ++ py "</code></pre>".

Definition code_soup : node :=
  Tag "[document]"
    [Tag "pre" [Tag "code" [NavigableString (py "print(1)" ++ nl)]]].

(** A paragraph with a code span. *)
Definition span_soup : node :=
  Tag "[document]"
    [Tag "p" [NavigableString (py "run ");
              Tag "code" [NavigableString (py "make")];
              NavigableString (py " now")]].

(** A file system with the font and an input file. *)
Definition disk (text : str) : world :=
  {| files := {[ font_path := TrueType 1%N;
                 "Project_Description.txt" := Utf8 text ]};
     unreadable := ∅; unwritable := ∅; stdout := [] |}.

(** A file system with the font only. *)
Definition bare : world :=
  {| files := {[ font_path := TrueType 1%N ]};
     unreadable := ∅; unwritable := ∅; stdout := [] |}.

(** Two document states with the font loaded and a page open. *)
Definition fresh : FPDF :=
  {| fonts := {[ "DejaVu" := 1%N ]}; page := 1; font_family := "DejaVu";
     font_size_pt := 12; canvas := [AddPage; SetFont "DejaVu" 12] |}.

Definition busy : FPDF :=
  {| fonts := {[ "DejaVu" := 7%N ]}; page := 3; font_family := "courier";
     font_size_pt := 30; canvas := [Ln 7] |}.

Definition heading : node := Tag "h2" [NavigableString (py " Usage ")].
Definition item : node := Tag "li" [NavigableString (py "first")].

End Samples.

Section Pipeline.

(** The library entry points the program calls: [markdown.markdown],
    [BeautifulSoup(_, 'html.parser')], which gives [None] where the call
    raises on markup it cannot parse, and the number of automatic page
    breaks fpdf2 makes while it lays out one cell. *)
Variable markdown_markdown : str -> str.
Variable BeautifulSoup : str -> option node.
Variable page_breaks : FPDF -> Z -> str -> nat.

(** [FPDF.cell(w, h, text, new_x=, new_y=)]. *)
Definition cell (w h : Z) (text : str) (new_x : XPos) (new_y : YPos)
    (pdf : FPDF) : result FPDF :=
  if can_draw pdf
  then Ok (turn_pages (page_breaks pdf h text)
             (draw (Cell w h text new_x new_y
                      (font_family pdf) (font_size_pt pdf)) pdf))
  else Raise FPDFException.

(** [FPDF.multi_cell(w, h, text)]. *)
Definition multi_cell (w h : Z) (text : str) (pdf : FPDF) : result FPDF :=
  if can_draw pdf
  then Ok (turn_pages (page_breaks pdf h text)
             (draw (MultiCell w h text
                      (font_family pdf) (font_size_pt pdf)) pdf))
  else Raise FPDFException.

(** The call [BeautifulSoup(html_content, 'html.parser')]. *)
Definition parse (html_content : str) : result node :=
  match BeautifulSoup html_content with
  | Some soup => Ok soup
  | None => Raise ParserRejectedMarkup
  end.

(** [convert_markdown_to_html]. *)
Definition convert_markdown_to_html (markdown_content : str) : str :=
  markdown_markdown markdown_content.

(** The body of the loop of [create_pdf]. *)
Definition process_element (element : node) (pdf : FPDF) : result FPDF :=
  let name := name_of element in
  if existsb (String.eqb name) ["h1"; "h2"; "h3"] then
    pdf ← set_font "DejaVu"
            (if String.eqb name "h1" then 16
             else if String.eqb name "h2" then 14 else 12) pdf;
    multi_cell 0 10 (strip (get_text element)) (ln 10 pdf)
  else if String.eqb name "p" then
    pdf ← set_font "DejaVu" 12 pdf;
    multi_cell 0 10 (strip (get_text element)) (ln 5 pdf)
  else if String.eqb name "li" then
    pdf ← set_font "DejaVu" 12 pdf;
    pdf ← cell 5 10 bullet XRIGHT YTOP (ln 2 pdf);
    multi_cell 0 10 (strip (get_text element)) pdf
  else if existsb (String.eqb name) ["code"; "pre"] then
    pdf ← set_font "DejaVu" 10 pdf;
    multi_cell 0 8 (strip (get_text element)) (ln 5 pdf)
  else Ok pdf.

(** The loop itself: an exception ends it. *)
Fixpoint for_each (elements : list node) (pdf : FPDF) : result FPDF :=
  match elements with
  | [] => Ok pdf
  | element :: rest => pdf ← process_element element pdf; for_each rest pdf
  end.

Definition allow_list : list string :=
  ["h1"; "h2"; "h3"; "p"; "li"; "code"; "pre"].

(** [create_pdf]. *)
Definition create_pdf (html_content : str) (output_path : string) : IO unit :=
  let* pdf := PDF in
  let* pdf := io_lift (set_font "DejaVu" 12 (add_page pdf)) in
  let* soup := io_lift (parse html_content) in
  let* pdf := io_lift (for_each (find_all allow_list soup) pdf) in
  output output_path pdf.

(** [main]. *)
Definition main : IO unit :=
  let input_file := "Project_Description.txt" in
  let output_file := "project_description.pdf" in
  let* markdown_content := read_markdown_file input_file in
  let html_content := convert_markdown_to_html markdown_content in
  let* _ := create_pdf html_content output_file in
  print ("PDF generated successfully: " +:+ output_file).

(** The element records the loop of [create_pdf] works through. *)
Definition elements (soup : node) : list (kind * str) :=
  omap element_of (find_all allow_list soup).

(** The file system is usable for a run that writes [path]: the font
    file is there and the destination can be opened for writing. *)
Definition usable (face : N) (path : string) (w : world) : Prop :=
  files w !! font_path = Some (TrueType face)
  /\ (font_path ∉ unreadable w)
  /\ (path ∉ unwritable w).

(** A fresh document with the font of [PDF()] loaded. *)
Definition loaded (face : N) : FPDF :=
  {| fonts := <["DejaVu" := face]> (fonts FPDF_init); page := page FPDF_init;
     font_family := font_family FPDF_init;
     font_size_pt := font_size_pt FPDF_init; canvas := canvas FPDF_init |}.

(** The part of [create_pdf] between the constructor and [output]. *)
Definition typeset (face : N) (html_content : str) : result FPDF :=
  pdf ← set_font "DejaVu" 12 (add_page (loaded face));
  soup ← parse html_content;
  for_each (find_all allow_list soup) pdf.

Definition input_file : string := "Project_Description.txt".
Definition output_file : string := "project_description.pdf".

(** The file system after [print] has written [line]. *)
Definition printed (line : string) (w : world) : world :=
  {| files := files w; unreadable := unreadable w;
     unwritable := unwritable w; stdout := stdout w ++ [line] |}.

(** The file system after [output] has stored [doc] at [path]. *)
Definition store (path : string) (doc : FPDF) (w : world) : world :=
  {| files := <[path := Pdf doc]> (files w); unreadable := unreadable w;
     unwritable := unwritable w; stdout := stdout w |}.

(** The layout table as a drawing program: what the specification has the
    emitter do for one element record, and for a sequence of them. *)
Definition draw_element (e : kind * str) (pdf : FPDF) : result FPDF :=
  pdf ← set_font "DejaVu" (kind_size (fst e)) pdf;
  pdf ← match fst e with
        | ListItem =>
            cell 5 10 bullet XRIGHT YTOP (ln (kind_spacing (fst e)) pdf)
        | _ => Ok (ln (kind_spacing (fst e)) pdf)
        end;
  multi_cell 0 (kind_line_height (fst e)) (snd e) pdf.

Fixpoint draw_all (es : list (kind * str)) (pdf : FPDF) : result FPDF :=
  match es with
  | [] => Ok pdf
  | e :: rest => pdf ← draw_element e pdf; draw_all rest pdf
  end.

(** The font file of [PDF()] can be loaded. *)
Definition font_loadable (w : world) : Prop :=
  exists face, files w !! font_path = Some (TrueType face)
               /\ (font_path ∉ unreadable w).

(** The input file of [main] can be read as text. *)
Definition input_text (w : world) (text : str) : Prop :=
  files w !! input_file = Some (Utf8 text) /\ (input_file ∉ unreadable w).

(** [unwrap n n']: [n'] is [n] with one tag outside the allow-list taken
    away, at any depth, its children put in its place. *)
Inductive unwrap : node -> node -> Prop :=
| unwrap_here r pre name contents post :
    classify name = None ->
    unwrap (Tag r (pre ++ Tag name contents :: post))
           (Tag r (pre ++ contents ++ post))
| unwrap_below r pre c c' post :
    unwrap c c' ->
    unwrap (Tag r (pre ++ c :: post)) (Tag r (pre ++ c' :: post)).

(** A text without whitespace at either end. *)
Definition trimmed (s : str) : Prop :=
  (forall c, head s = Some c -> isspace c = false)
  /\ (forall c, last s = Some c -> isspace c = false).

Definition blank (s : str) : Prop := Forall (fun c => isspace c = true) s.

(** [s] with whitespace taken from its two ends only gives [t]. *)
Definition trim_of (s t : str) : Prop :=
  exists pre post, s = pre ++ t ++ post /\ blank pre /\ blank post.

(** The geometry of a text block: full width, line height 8 at size 10 and
    10 otherwise. *)
Definition full_width (o : op) : Prop :=
  match o with
  | MultiCell w h _ family size =>
      w = 0 /\ family = "DejaVu"
      /\ (size = 10 /\ h = 8 \/ size <> 10 /\ h = 10)
  | _ => True
  end.

(** The document of an input without any allow-listed tag. *)
Definition empty_page (face : N) : FPDF :=
  {| fonts := <["DejaVu" := face]> ∅; page := 1; font_family := "DejaVu";
     font_size_pt := 12; canvas := [AddPage; SetFont "DejaVu" 12] |}.

(** *** Trees *)

Lemma node_ind' (P : node -> Prop) :
  (forall s, P (NavigableString s)) ->
  (forall s, P (Comment s)) ->
  (forall name contents, Forall P contents -> P (Tag name contents)) ->
  forall n, P n.
Proof.
  intros Hs Hc Ht.
  fix IH 1. intros [s|s|name contents].
  - apply Hs.
  - apply Hc.
  - apply Ht.
    induction contents as [|c cs IHcs]; constructor; [apply IH | exact IHcs].
Qed.

Lemma name_in_allow_list n :
  name_in allow_list n = bool_decide (is_Some (element_of n)).
Proof.
  destruct n as [s|s|name contents]; try reflexivity.
  unfold name_in, element_of, classify. simpl.
  repeat (destruct (String.eqb name _); [reflexivity|]).
  reflexivity.
Qed.

Lemma omap_cons' {A B} (f : A -> option B) a l :
  omap f (a :: l)
  = match f a with Some b => b :: omap f l | None => omap f l end.
Proof. reflexivity. Qed.

Lemma omap_filter_is_Some {A B} (f : A -> option B) (p : A -> bool) l :
  (forall a, p a = bool_decide (is_Some (f a))) ->
  omap f (List.filter p l) = omap f l.
Proof.
  intros Hp. induction l as [|a l IH]; [reflexivity|].
  cbn [List.filter]. rewrite Hp, (omap_cons' f a l).
  destruct (f a) as [b|] eqn:Hfa.
  - rewrite bool_decide_eq_true_2 by eauto.
    rewrite omap_cons', Hfa, IH. reflexivity.
  - rewrite bool_decide_eq_false_2 by (intros [? ?]; discriminate). exact IH.
Qed.

Lemma elements_descendants soup :
  elements soup = omap element_of (descendants soup).
Proof. apply omap_filter_is_Some, name_in_allow_list. Qed.

Lemma omap_flat_map {A B C} (f : B -> option C) (g : A -> list B) l :
  omap f (flat_map g l) = flat_map (fun a => omap f (g a)) l.
Proof.
  induction l as [|a l IH]; [reflexivity|].
  cbn [flat_map]. rewrite omap_app, IH. reflexivity.
Qed.

Lemma document_order_descendants n :
  omap element_of (n :: descendants n) = document_order n.
Proof.
  induction n as [s|s|name contents IH] using node_ind'; try reflexivity.
  assert (Hd : omap element_of (descendants (Tag name contents))
               = flat_map document_order contents).
  { cbn [descendants]. rewrite omap_flat_map.
    induction IH as [|c cs Hc _ IHcs]; [reflexivity|].
    cbn [flat_map]. rewrite <- Hc, IHcs. reflexivity. }
  rewrite omap_cons', Hd. cbn [document_order].
  destruct (element_of (Tag name contents)); reflexivity.
Qed.

Lemma elements_document_order soup :
  elements soup = flat_map document_order (contents_of soup).
Proof.
  rewrite elements_descendants.
  destruct soup as [s|s|name contents]; try reflexivity.
  cbn [descendants contents_of]. rewrite omap_flat_map.
  induction contents as [|c cs IH]; [reflexivity|].
  cbn [flat_map]. rewrite IH, document_order_descendants. reflexivity.
Qed.

(** *** The record of drawing calls *)

Lemma blocks_from_element_ops es : forall spacing prefix,
  blocks_from spacing prefix (flat_map element_ops es)
  = List.map table_block (omap element_of es).
Proof.
  induction es as [|n es IH]; intros spacing prefix; [reflexivity|].
  cbn [flat_map]. rewrite omap_cons'. unfold element_ops at 1.
  destruct (element_of n) as [[k text]|]; [|apply IH].
  destruct k; simpl; rewrite IH; reflexivity.
Qed.

Lemma blocks_from_app log es : forall spacing prefix,
  blocks_from spacing prefix (log ++ flat_map element_ops es)
  = blocks_from spacing prefix log ++ List.map table_block (omap element_of es).
Proof.
  induction log as [|o log IH]; intros spacing prefix.
  - apply blocks_from_element_ops.
  - destruct o; simpl; rewrite IH; reflexivity.
Qed.

(** *** The drawing calls never fail once the font is loaded *)

Lemma set_font_loaded family size pdf :
  is_Some (fonts pdf !! family) ->
  set_font family size pdf
  = Ok (draw (SetFont family size)
          {| fonts := fonts pdf; page := page pdf; font_family := family;
             font_size_pt := size; canvas := canvas pdf |}).
Proof.
  intros H. unfold set_font.
  rewrite (bool_decide_eq_true_2 _ H), orb_true_r. reflexivity.
Qed.

Lemma multi_cell_drawable w h text pdf :
  page pdf <> 0%nat -> font_family pdf <> "" ->
  multi_cell w h text pdf
  = Ok (turn_pages (page_breaks pdf h text)
          (draw (MultiCell w h text (font_family pdf) (font_size_pt pdf)) pdf)).
Proof.
  intros Hp Hf. unfold multi_cell, can_draw.
  apply Nat.eqb_neq in Hp. apply String.eqb_neq in Hf.
  rewrite Hp, Hf. reflexivity.
Qed.

Lemma cell_drawable w h text nx ny pdf :
  page pdf <> 0%nat -> font_family pdf <> "" ->
  cell w h text nx ny pdf
  = Ok (turn_pages (page_breaks pdf h text)
          (draw (Cell w h text nx ny (font_family pdf) (font_size_pt pdf)) pdf)).
Proof.
  intros Hp Hf. unfold cell, can_draw.
  apply Nat.eqb_neq in Hp. apply String.eqb_neq in Hf.
  rewrite Hp, Hf. reflexivity.
Qed.

Lemma process_element_ok n pdf :
  is_Some (fonts pdf !! "DejaVu") -> page pdf <> 0%nat ->
  exists pdf', process_element n pdf = Ok pdf'
    /\ canvas pdf' = canvas pdf ++ element_ops n
    /\ fonts pdf' = fonts pdf
    /\ (page pdf <= page pdf')%nat.
Proof.
  intros Hf Hp.
  assert (Hnone : exists pdf', Ok pdf = Ok pdf'
            /\ canvas pdf' = canvas pdf ++ []
            /\ fonts pdf' = fonts pdf /\ (page pdf <= page pdf')%nat).
  { exists pdf. rewrite app_nil_r. auto. }
  destruct n as [s|s|name contents]; try exact Hnone.
  unfold process_element, element_ops, element_of, classify.
  cbn [name_of existsb orb].
  repeat lazymatch goal with
  | |- context [String.eqb name ?t] =>
      let E := fresh "E" in
      destruct (String.eqb name t) eqn:E;
      [ apply String.eqb_eq in E; subst name; clear Hnone;
        cbn [orb];
        rewrite (set_font_loaded _ _ _ Hf); cbn [mbind result_bind];
        rewrite ?cell_drawable by (simpl; first [exact Hp | discriminate]);
        cbn [mbind result_bind];
        rewrite multi_cell_drawable by (simpl; first [discriminate | lia]);
        eexists; split; [reflexivity|]; simpl;
        rewrite <- ?app_assoc; repeat split; try reflexivity; lia
      | cbn [orb] ]
  end.
  exact Hnone.
Qed.

Lemma for_each_ok es : forall pdf,
  is_Some (fonts pdf !! "DejaVu") -> page pdf <> 0%nat ->
  exists pdf', for_each es pdf = Ok pdf'
    /\ canvas pdf' = canvas pdf ++ flat_map element_ops es
    /\ fonts pdf' = fonts pdf
    /\ (page pdf <= page pdf')%nat.
Proof.
  induction es as [|n es IH]; intros pdf Hf Hp.
  - exists pdf. rewrite app_nil_r. auto.
  - destruct (process_element_ok n pdf Hf Hp) as (pdf1 & H1 & Hc1 & Hf1 & Hp1).
    destruct (IH pdf1) as (pdf2 & H2 & Hc2 & Hf2 & Hp2).
    + rewrite Hf1. exact Hf.
    + lia.
    + exists pdf2. cbn [for_each]. rewrite H1. cbn [mbind result_bind].
      rewrite H2, Hc2, Hc1, Hf2, Hf1, <- app_assoc.
      repeat split; try reflexivity. lia.
Qed.

Lemma typeset_ok face html soup :
  BeautifulSoup html = Some soup ->
  exists doc, typeset face html = Ok doc
    /\ canvas doc = [AddPage; SetFont "DejaVu" 12]
                    ++ flat_map element_ops (find_all allow_list soup)
    /\ (1 <= page doc)%nat.
Proof.
  intros Hsoup. unfold typeset, parse. rewrite set_font_loaded, Hsoup.
  2:{ simpl. rewrite lookup_insert_eq. eauto. }
  cbn [mbind result_bind].
  edestruct for_each_ok as (doc & H & Hc & _ & Hp);
    [| | exists doc; split; [exact H|]].
  - simpl. rewrite lookup_insert_eq. eauto.
  - simpl. discriminate.
  - rewrite Hc. simpl in Hp. split; [reflexivity | lia].
Qed.

Lemma typeset_rejected face html :
  BeautifulSoup html = None -> typeset face html = Raise ParserRejectedMarkup.
Proof.
  intros Hsoup. unfold typeset, parse. rewrite set_font_loaded, Hsoup.
  - reflexivity.
  - simpl. rewrite lookup_insert_eq. eauto.
Qed.

(** *** [create_pdf] and [main] against the file system *)

Lemma create_pdf_typeset face html path w :
  usable face path w ->
  create_pdf html path w
  = match typeset face html with
    | Ok doc => (Ok tt, store path (if (page doc =? 0)%nat then add_page doc
                                    else doc) w)
    | Raise e => (Raise e, w)
    end.
Proof.
  intros (Hfont & Hread & Hwrite).
  unfold create_pdf, PDF, add_font, io_bind, io_lift, typeset, loaded.
  rewrite Hfont, (bool_decide_eq_false_2 _ Hread).
  destruct (set_font "DejaVu" 12 _) as [pdf|e]; [|reflexivity].
  cbn [mbind result_bind].
  destruct (parse html) as [soup|e]; [|reflexivity].
  cbn [mbind result_bind].
  destruct (for_each _ pdf) as [doc|e]; [|reflexivity].
  unfold output. rewrite (bool_decide_eq_false_2 _ Hwrite). reflexivity.
Qed.

Lemma create_pdf_ok face html soup path w :
  usable face path w ->
  BeautifulSoup html = Some soup ->
  exists doc, create_pdf html path w = (Ok tt, store path doc w)
    /\ typeset face html = Ok doc
    /\ canvas doc = [AddPage; SetFont "DejaVu" 12]
                    ++ flat_map element_ops (find_all allow_list soup)
    /\ (1 <= page doc)%nat
    /\ blocks (canvas doc) = List.map table_block (elements soup).
Proof.
  intros Hw Hsoup.
  destruct (typeset_ok face html soup Hsoup) as (doc & H & Hc & Hp).
  exists doc. rewrite (create_pdf_typeset face) by exact Hw. rewrite H.
  destruct (Nat.eqb_spec (page doc) 0) as [E|_]; [lia|].
  repeat split; try assumption.
  rewrite Hc. apply (blocks_from_element_ops _ None None).
Qed.

Lemma create_pdf_raise html path w e w' :
  create_pdf html path w = (Raise e, w') -> w' = w.
Proof.
  unfold create_pdf, PDF, add_font, io_bind, io_lift.
  destruct (files w !! font_path) as [[text| |face|doc]|];
    try (inversion 1; reflexivity).
  destruct (bool_decide _); [inversion 1; reflexivity|].
  destruct (set_font "DejaVu" 12 _) as [pdf|e1]; [|inversion 1; reflexivity].
  destruct (parse html) as [soup|e0]; [|inversion 1; reflexivity].
  destruct (for_each _ pdf) as [doc|e2]; [|inversion 1; reflexivity].
  unfold output. destruct (bool_decide _); inversion 1; reflexivity.
Qed.

Lemma main_raise w e w' : main w = (Raise e, w') -> w' = w.
Proof.
  unfold main, io_bind, read_markdown_file.
  destruct (files w !! _) as [f|]; [|inversion 1; reflexivity].
  destruct (bool_decide _); [inversion 1; reflexivity|].
  destruct f as [text| |face|doc]; try (inversion 1; reflexivity).
  destruct (create_pdf _ _ w) as [[[]|e'] w1] eqn:Hc.
  - unfold print. inversion 1.
  - inversion 1; subst. eapply create_pdf_raise, Hc.
Qed.

Lemma main_ok face text soup w :
  files w !! input_file = Some (Utf8 text) ->
  input_file ∉ unreadable w ->
  usable face output_file w ->
  BeautifulSoup (convert_markdown_to_html text) = Some soup ->
  exists doc,
    main w = (Ok tt, printed ("PDF generated successfully: " +:+ output_file)
                       (store output_file doc w))
    /\ typeset face (convert_markdown_to_html text) = Ok doc
    /\ canvas doc = [AddPage; SetFont "DejaVu" 12]
                    ++ flat_map element_ops (find_all allow_list soup)
    /\ (1 <= page doc)%nat.
Proof.
  intros Hin Hread Hw Hsoup.
  destruct (create_pdf_ok face (convert_markdown_to_html text) soup
              output_file w Hw Hsoup)
    as (doc & H & Ht & Hc & Hp & _).
  exists doc. split; [|auto].
  unfold main, io_bind, read_markdown_file.
  fold input_file. fold output_file.
  rewrite Hin, (bool_decide_eq_false_2 _ Hread), H. reflexivity.
Qed.

Lemma create_pdf_ok_inv html path w w' :
  create_pdf html path w = (Ok tt, w') ->
  exists face soup, usable face path w /\ BeautifulSoup html = Some soup.
Proof.
  unfold create_pdf, PDF, add_font, io_bind, io_lift, usable, parse.
  destruct (files w !! font_path) as [[text| |face|doc]|];
    try (inversion 1; fail).
  destruct (bool_decide _) eqn:Hr; [inversion 1|].
  apply bool_decide_eq_false in Hr.
  destruct (set_font "DejaVu" 12 _) as [pdf|e1]; [|inversion 1].
  destruct (BeautifulSoup html) as [soup|]; [|inversion 1].
  destruct (for_each _ pdf) as [doc|e2]; [|inversion 1].
  unfold output. destruct (bool_decide _) eqn:Hw; [inversion 1|].
  apply bool_decide_eq_false in Hw. intros _. eauto 6.
Qed.

Lemma main_ok_inv w w' :
  main w = (Ok tt, w') ->
  exists face text soup,
    files w !! input_file = Some (Utf8 text)
    /\ (input_file ∉ unreadable w)
    /\ usable face output_file w
    /\ BeautifulSoup (convert_markdown_to_html text) = Some soup.
Proof.
  unfold main, io_bind, read_markdown_file.
  fold input_file. fold output_file.
  destruct (files w !! input_file) as [f|]; [|inversion 1].
  destruct (bool_decide _) eqn:Hr; [inversion 1|].
  apply bool_decide_eq_false in Hr.
  destruct f as [text| |face|doc]; try (inversion 1; fail).
  destruct (create_pdf _ _ w) as [[[]|e'] w1] eqn:Hc; [|discriminate].
  destruct (create_pdf_ok_inv _ _ _ _ Hc) as (face & soup & Hw & Hsoup).
  exists face, text, soup. auto.
Qed.

Lemma element_ops_Forall (P : op -> Prop) es :
  (forall k text,
      P (SetFont "DejaVu" (kind_size k)) /\ P (Ln (kind_spacing k))
      /\ P (Cell 5 10 bullet XRIGHT YTOP "DejaVu" 12)
      /\ P (MultiCell 0 (kind_line_height k) text "DejaVu" (kind_size k))) ->
  Forall P (flat_map element_ops es).
Proof.
  intros HP. apply Forall_flat_map, List.Forall_forall. intros n _.
  unfold element_ops. destruct (element_of n) as [[k text]|]; [|constructor].
  destruct (HP k text) as (? & ? & ? & ?).
  destruct k; repeat constructor; assumption.
Qed.

Lemma create_pdf_blocks face html soup path w :
  usable face path w ->
  BeautifulSoup html = Some soup ->
  exists doc, create_pdf html path w = (Ok tt, store path doc w)
    /\ blocks (canvas doc) = List.map table_block (elements soup).
Proof.
  intros Hw Hsoup.
  destruct (create_pdf_ok face html soup path w Hw Hsoup)
    as (doc & H & _ & _ & _ & Hb).
  eauto.
Qed.

Lemma filter_none {A} (p : A -> bool) l :
  Forall (fun a => p a = false) l -> List.filter p l = [].
Proof.
  induction 1 as [|a l Ha _ IH]; simpl; [reflexivity|].
  rewrite Ha. exact IH.
Qed.

Lemma Forall2_map_r {A B} (R : A -> B -> Prop) (f : A -> B) l :
  (forall a, R a (f a)) -> Forall2 R l (List.map f l).
Proof. intros H. induction l; simpl; constructor; auto. Qed.

Lemma Forall2_map_eq {A B C} (f : A -> C) (g : B -> C) l bs :
  Forall2 (fun a b => g b = f a) l bs -> List.map g bs = List.map f l.
Proof. induction 1 as [|a b l bs Hab _ IH]; simpl; congruence. Qed.

(** *** The claims *)

(** C3. The text blocks [create_pdf] writes are the trimmed texts of the
    allow-listed tags of the parsed HTML in document order (a tag, then
    its children left to right), and every text written is the flattened
    text of some allow-listed tag of the tree: a tag outside the
    allow-list contributes no block of its own. *)
Theorem C3_blocks_in_document_order face html soup path w :
  usable face path w ->
  BeautifulSoup html = Some soup ->
  exists doc, create_pdf html path w = (Ok tt, store path doc w)
    /\ List.map b_text (blocks (canvas doc))
       = List.map snd (flat_map document_order
                         (contents_of soup))
    /\ Forall (fun text =>
                 exists n k, n ∈ descendants soup
                   /\ classify (name_of n) = Some k
                   /\ text = strip (get_text n))
              (List.map b_text (blocks (canvas doc))).
Proof.
  intros Hw Hsoup.
  destruct (create_pdf_blocks face html soup path w Hw Hsoup)
    as (doc & H & Hb).
  exists doc. split; [exact H|]. rewrite Hb, List.map_map.
  change (fun x => b_text (table_block x)) with (@snd kind str).
  split.
  - rewrite elements_document_order. reflexivity.
  - rewrite elements_descendants. apply List.Forall_forall.
    intros text Hin. apply List.in_map_iff in Hin as ([k t] & <- & Hin).
    apply list_elem_of_In, list_elem_of_omap in Hin as (n & Hn & He).
    exists n, k. split; [exact Hn|].
    destruct n as [s|s|name contents]; try discriminate.
    simpl in He. simpl. destruct (classify name); inversion He; auto.
Qed.

(** C4. Every text block is drawn at the size of its element kind:
    H1 16, H2 14, H3 12, Paragraph 12, ListItem 12, code 10; so wherever
    a document has an H1, an H2 and an H3, their blocks are drawn at
    strictly decreasing sizes. *)
Theorem C4_font_size_by_kind face html soup path w :
  usable face path w ->
  BeautifulSoup html = Some soup ->
  exists doc, create_pdf html path w = (Ok tt, store path doc w)
    /\ Forall2 (fun e b =>
                  b_size b = match fst e with
                             | H1 => 16
                             | H2 => 14
                             | H3 | Paragraph | ListItem => 12
                             | InlineCode | CodeBlock => 10
                             end)
               (elements soup) (blocks (canvas doc))
    /\ forall i j k t1 t2 t3,
         elements soup !! i = Some (H1, t1) ->
         elements soup !! j = Some (H2, t2) ->
         elements soup !! k = Some (H3, t3) ->
         exists b1 b2 b3,
           blocks (canvas doc) !! i = Some b1
           /\ blocks (canvas doc) !! j = Some b2
           /\ blocks (canvas doc) !! k = Some b3
           /\ b_size b1 > b_size b2 /\ b_size b2 > b_size b3.
Proof.
  intros Hw Hsoup.
  destruct (create_pdf_blocks face html soup path w Hw Hsoup)
    as (doc & H & Hb).
  exists doc. split; [exact H|]. rewrite Hb. split.
  - apply Forall2_map_r. intros [[] t]; reflexivity.
  - intros i j k t1 t2 t3 Hi Hj Hk.
    exists (table_block (H1, t1)), (table_block (H2, t2)),
      (table_block (H3, t3)).
    change (List.map table_block) with (fmap (M:=list) table_block).
    rewrite !list_lookup_fmap, Hi, Hj, Hk. simpl. repeat split; lia.
Qed.

(** C5. The line break issued immediately before each text block is 10
    for a heading, 5 for a paragraph, 2 for a list item and 5 for code. *)
Theorem C5_spacing_by_kind face html soup path w :
  usable face path w ->
  BeautifulSoup html = Some soup ->
  exists doc, create_pdf html path w = (Ok tt, store path doc w)
    /\ Forall2 (fun e b =>
                  b_spacing b = Some (match fst e with
                                      | H1 | H2 | H3 => 10
                                      | Paragraph => 5
                                      | ListItem => 2
                                      | InlineCode | CodeBlock => 5
                                      end))
               (elements soup) (blocks (canvas doc)).
Proof.
  intros Hw Hsoup.
  destruct (create_pdf_blocks face html soup path w Hw Hsoup)
    as (doc & H & Hb).
  exists doc. split; [exact H|]. rewrite Hb.
  apply Forall2_map_r. intros [[] t]; reflexivity.
Qed.

(** C6. A list item, and no other element, has a cell of width 5 drawn
    immediately before its text block, and the document holds no other
    cell.  What the cell holds is not the bullet U+2022 but the three
    characters U+00E2 U+20AC U+00A2 of the literal in the source. *)
Theorem C6_bullet_only_before_list_items face html soup path w :
  usable face path w ->
  BeautifulSoup html = Some soup ->
  exists doc, create_pdf html path w = (Ok tt, store path doc w)
    /\ Forall2 (fun e b =>
                  b_prefix b = match fst e with
                               | ListItem => Some (5, [226; 8364; 162]%N)
                               | _ => None
                               end)
               (elements soup) (blocks (canvas doc))
    /\ Forall (fun o => is_cell o = true ->
                         o = Cell 5 10 [226; 8364; 162]%N XRIGHT YTOP
                               "DejaVu" 12)
              (canvas doc)
    /\ bullet <> [8226]%N.
Proof.
  intros Hw Hsoup.
  destruct (create_pdf_ok face html soup path w Hw Hsoup)
    as (doc & H & _ & Hc & _ & Hb).
  exists doc. split; [exact H|]. split; [|split; [|discriminate]].
  - rewrite Hb. apply Forall2_map_r. intros [[] t]; reflexivity.
  - rewrite Hc. apply Forall_app. split.
    + repeat constructor; discriminate.
    + apply element_ops_Forall. intros k text.
      repeat split; try discriminate; try reflexivity.
Qed.

(** C7. With no input file the run raises [FileAccessError]; and whatever
    exception ends [main] or [create_pdf], the file system is as it was
    before the run: no output file has been created. *)
Theorem C7_failure_leaves_no_output w :
  (files w !! input_file = None -> main w = (Raise FileAccessError, w))
  /\ (forall e w', main w = (Raise e, w') -> w' = w)
  /\ (forall html path e w', create_pdf html path w = (Raise e, w') -> w' = w).
Proof.
  split; [|split].
  - intros Hin. unfold main, io_bind, read_markdown_file.
    fold input_file. rewrite Hin. reflexivity.
  - apply main_raise.
  - intros html path. apply create_pdf_raise.
Qed.

(** C8. For every text of the input file whose rendering the parser
    accepts, a run on a usable file system succeeds.  Every successful
    run changes the file system at the output path only, where it stores
    one document with at least one page; [add_page] was called once,
    before anything else was drawn. *)
Theorem C8_one_document_with_a_page w :
  (forall face text soup,
      files w !! input_file = Some (Utf8 text) ->
      input_file ∉ unreadable w ->
      usable face output_file w ->
      BeautifulSoup (convert_markdown_to_html text) = Some soup ->
      exists w', main w = (Ok tt, w'))
  /\ (forall w', main w = (Ok tt, w') ->
        exists doc,
          w' = printed ("PDF generated successfully: " +:+ output_file)
                 (store output_file doc w)
          /\ written output_file w' = Some doc
          /\ (forall p, p <> output_file -> files w' !! p = files w !! p)
          /\ (1 <= page doc)%nat
          /\ head (canvas doc) = Some AddPage
          /\ length (List.filter is_add_page (canvas doc)) = 1%nat).
Proof.
  split.
  - intros face text soup Hin Hread Hw Hsoup.
    destruct (main_ok face text soup w Hin Hread Hw Hsoup) as (doc & H & _).
    eauto.
  - intros w' Hrun.
    destruct (main_ok_inv w w' Hrun)
      as (face & text & soup & Hin & Hread & Hw & Hsoup).
    destruct (main_ok face text soup w Hin Hread Hw Hsoup)
      as (doc & H & _ & Hc & Hp).
    exists doc. rewrite H in Hrun. inversion Hrun; subst w'.
    split; [reflexivity|]. split; [|split; [|split; [|split]]].
    + unfold written, printed, store. simpl.
      rewrite lookup_insert_eq. reflexivity.
    + intros p Hne. unfold printed, store. simpl.
      rewrite lookup_insert_ne by congruence. reflexivity.
    + exact Hp.
    + rewrite Hc. reflexivity.
    + rewrite Hc. simpl. f_equal. apply length_zero_iff_nil, filter_none.
      apply element_ops_Forall. intros; auto.
Qed.

(** C10. From any document state with the font loaded and a page open,
    whatever font is current, the loop draws each element's block in
    'DejaVu' at the size of the element's tag: the blocks depend on the
    elements alone, and reordering the elements reorders the blocks and
    changes none. *)
Theorem C10_font_set_per_element es es' pdf pdf' :
  is_Some (fonts pdf !! "DejaVu") -> page pdf <> 0%nat ->
  is_Some (fonts pdf' !! "DejaVu") -> page pdf' <> 0%nat ->
  es ≡ₚ es' ->
  exists pdf1 pdf1',
    for_each es pdf = Ok pdf1
    /\ for_each es' pdf' = Ok pdf1'
    /\ blocks (drawn_since pdf pdf1) = List.map table_block (omap element_of es)
    /\ Forall2 (fun e b => b_family b = "DejaVu" /\ b_size b = kind_size (fst e))
               (omap element_of es) (blocks (drawn_since pdf pdf1))
    /\ blocks (drawn_since pdf pdf1) ≡ₚ blocks (drawn_since pdf' pdf1').
Proof.
  intros Hf Hp Hf' Hp' Hperm.
  destruct (for_each_ok es pdf Hf Hp) as (pdf1 & H1 & Hc1 & _).
  destruct (for_each_ok es' pdf' Hf' Hp') as (pdf1' & H1' & Hc1' & _).
  assert (Hd : forall l p q, canvas q = canvas p ++ flat_map element_ops l ->
               blocks (drawn_since p q) = List.map table_block (omap element_of l)).
  { intros l p q Hc. unfold drawn_since. rewrite Hc, drop_app_length.
    apply blocks_from_element_ops. }
  exists pdf1, pdf1'. rewrite (Hd _ _ _ Hc1), (Hd _ _ _ Hc1').
  repeat split; try assumption.
  - apply Forall2_map_r. intros [k t]. split; reflexivity.
  - apply Permutation_map. rewrite Hperm. reflexivity.
Qed.

(** C1. On the tree of a code block ([pre] around [code]) the walk draws
    the code's text twice, once for each of the two tags; on a paragraph
    with a code span it draws the span's text within the paragraph and
    once more on its own. *)
Theorem C1_nested_code_drawn_twice face html path w :
  usable face path w ->
  (BeautifulSoup html = Some Samples.code_soup ->
   exists doc, create_pdf html path w = (Ok tt, store path doc w)
     /\ blocks (canvas doc)
        = [table_block (CodeBlock, py "print(1)");
           table_block (InlineCode, py "print(1)")])
  /\ (BeautifulSoup html = Some Samples.span_soup ->
      exists doc, create_pdf html path w = (Ok tt, store path doc w)
        /\ blocks (canvas doc)
           = [table_block (Paragraph, py "run make now");
              table_block (InlineCode, py "make")]).
Proof.
  intros Hw.
  split; intros Hsoup;
    destruct (create_pdf_blocks face html _ path w Hw Hsoup) as (doc & H & Hb);
    exists doc; (split; [exact H|]); rewrite Hb; reflexivity.
Qed.

(** C2. For the input "# Title\n\nSome text.\n\n- item one\n- item two\n",
    rendered and parsed as the libraries do, the loop works through the
    four elements H1 Title, Paragraph Some text., ListItem item one,
    ListItem item two, and the document stored holds, in this order, one
    block at size 16, one at size 12 after a break of 5, and two blocks
    each with a cell of width 5 in front.  That cell does not hold the
    bullet U+2022: it holds the three characters U+00E2 U+20AC U+00A2 of
    the literal in the source. *)
Theorem C2_title_scenario face w :
  markdown_markdown Samples.title_md = Samples.title_html ->
  BeautifulSoup Samples.title_html = Some Samples.title_soup ->
  files w !! input_file = Some (Utf8 Samples.title_md) ->
  input_file ∉ unreadable w ->
  usable face output_file w ->
  option_map elements
    (BeautifulSoup (convert_markdown_to_html Samples.title_md))
  = Some [(H1, py "Title"); (Paragraph, py "Some text.");
          (ListItem, py "item one"); (ListItem, py "item two")]
  /\ (exists doc,
        main w
        = (Ok tt, printed ("PDF generated successfully: " +:+ output_file)
                    (store output_file doc w))
        /\ blocks (canvas doc)
           = [mkBlock "DejaVu" 16 (Some 10) None (py "Title");
              mkBlock "DejaVu" 12 (Some 5) None (py "Some text.");
              mkBlock "DejaVu" 12 (Some 2) (Some (5, [226; 8364; 162]%N))
                (py "item one");
              mkBlock "DejaVu" 12 (Some 2) (Some (5, [226; 8364; 162]%N))
                (py "item two")])
  /\ bullet <> [8226]%N.
Proof.
  intros Hmd Hsoup Hin Hread Hw.
  assert (Hparse : BeautifulSoup (convert_markdown_to_html Samples.title_md)
                   = Some Samples.title_soup).
  { unfold convert_markdown_to_html. rewrite Hmd. exact Hsoup. }
  split; [rewrite Hparse; reflexivity|]. split; [|discriminate].
  destruct (main_ok face _ _ w Hin Hread Hw Hparse) as (doc & H & _ & Hc & _).
  exists doc. split; [exact H|]. rewrite Hc. reflexivity.
Qed.

(** *** Outcomes of [create_pdf] and [main] *)

Lemma create_pdf_outcome html path w :
  create_pdf html path w
  = match files w !! font_path with
    | Some (TrueType face) =>
        if bool_decide (font_path ∈ unreadable w)
        then (Raise FontLoadError, w)
        else match typeset face html with
             | Ok doc => output path doc w
             | Raise e => (Raise e, w)
             end
    | _ => (Raise FontLoadError, w)
    end.
Proof.
  unfold create_pdf, PDF, add_font, io_bind, io_lift, typeset, loaded.
  destruct (files w !! font_path) as [[text| |face|doc]|]; try reflexivity.
  destruct (bool_decide _); [reflexivity|].
  destruct (set_font "DejaVu" 12 _) as [pdf|e]; [|reflexivity].
  cbn [mbind result_bind].
  destruct (parse html) as [soup|e]; [|reflexivity].
  cbn [mbind result_bind].
  destruct (for_each _ pdf) as [doc|e]; reflexivity.
Qed.

Lemma create_pdf_cases html path w :
  (~ font_loadable w /\ create_pdf html path w = (Raise FontLoadError, w))
  \/ (font_loadable w /\ BeautifulSoup html = None
      /\ create_pdf html path w = (Raise ParserRejectedMarkup, w))
  \/ (font_loadable w /\ is_Some (BeautifulSoup html)
      /\ path ∈ unwritable w
      /\ create_pdf html path w = (Raise RenderError, w))
  \/ (font_loadable w /\ is_Some (BeautifulSoup html)
      /\ (path ∉ unwritable w)
      /\ exists doc, create_pdf html path w = (Ok tt, store path doc w)).
Proof.
  rewrite create_pdf_outcome. unfold font_loadable.
  destruct (files w !! font_path) as [[text| |face|doc]|] eqn:Hfont;
    try (left; split; [intros (face' & [=] & _) | reflexivity]).
  destruct (decide (font_path ∈ unreadable w)) as [Hr|Hr].
  { left. rewrite (bool_decide_eq_true_2 _ Hr).
    split; [intros (face' & _ & Hn); exact (Hn Hr) | reflexivity]. }
  right. rewrite (bool_decide_eq_false_2 _ Hr).
  destruct (BeautifulSoup html) as [soup|] eqn:Hsoup.
  2:{ left. rewrite (typeset_rejected face html Hsoup). eauto. }
  right. destruct (typeset_ok face html soup Hsoup) as (doc & -> & _ & Hp).
  unfold output.
  destruct (decide (path ∈ unwritable w)) as [Hw|Hw].
  - left. rewrite (bool_decide_eq_true_2 _ Hw). eauto 6.
  - right. rewrite (bool_decide_eq_false_2 _ Hw).
    destruct (Nat.eqb_spec (page doc) 0) as [E|_]; [lia|].
    split; [eauto|]. split; [eauto|]. split; [exact Hw|].
    exists doc. reflexivity.
Qed.

Lemma main_input_text w text :
  input_text w text ->
  main w = match create_pdf (convert_markdown_to_html text) output_file w with
           | (Ok _, w1) =>
               print ("PDF generated successfully: " +:+ output_file) w1
           | (Raise e, w1) => (Raise e, w1)
           end.
Proof.
  intros [Hin Hread]. unfold main, io_bind, read_markdown_file.
  fold input_file. fold output_file.
  rewrite Hin, (bool_decide_eq_false_2 _ Hread). reflexivity.
Qed.

Lemma main_cases w :
  ((files w !! input_file = None \/ input_file ∈ unreadable w)
   /\ main w = (Raise FileAccessError, w))
  \/ ((exists f, files w !! input_file = Some f
                 /\ (input_file ∉ unreadable w)
                 /\ forall text, f <> Utf8 text)
      /\ main w = (Raise DecodingError, w))
  \/ (exists text, input_text w text).
Proof.
  unfold input_text.
  destruct (files w !! input_file) as [f|] eqn:Hin.
  2:{ left. split; [auto|]. unfold main, io_bind, read_markdown_file.
      fold input_file. rewrite Hin. reflexivity. }
  destruct (decide (input_file ∈ unreadable w)) as [Hr|Hr].
  { left. split; [auto|]. unfold main, io_bind, read_markdown_file.
    fold input_file. rewrite Hin, (bool_decide_eq_true_2 _ Hr). reflexivity. }
  destruct f as [text| |face|doc];
    try (right; left; split;
         [ eexists; repeat split; [exact Hr | discriminate]
         | unfold main, io_bind, read_markdown_file; fold input_file;
           rewrite Hin, (bool_decide_eq_false_2 _ Hr); reflexivity ]).
  right. right. exists text. auto.
Qed.

(** X1. Neither [create_pdf] nor [main] ever ends with [FPDFException]:
    the font every [set_font] asks for is the one the constructor loaded,
    and a page is open before the first cell is drawn. *)
Theorem X1_drawing_calls_never_fail w w' :
  main w <> (Raise FPDFException, w')
  /\ forall html path, create_pdf html path w <> (Raise FPDFException, w').
Proof.
  assert (Hc : forall html path,
             create_pdf html path w <> (Raise FPDFException, w')).
  { intros html path.
    destruct (create_pdf_cases html path w)
      as [[_ ->]|[(_ & _ & ->)|[(_ & _ & _ & ->)|(_ & _ & _ & doc & ->)]]];
      discriminate. }
  split; [|exact Hc].
  destruct (main_cases w) as [[_ ->]|[[_ ->]|[text Ht]]]; try discriminate.
  rewrite (main_input_text w text Ht).
  destruct (create_pdf _ _ w) as [[[]|e] w1] eqn:Hrun.
  - unfold print. discriminate.
  - intros [= -> ->]. exact (Hc _ _ Hrun).
Qed.

(** X2. [main] ends with [FileAccessError] exactly when the input file is
    missing or cannot be opened, and with [DecodingError] exactly when it
    can be opened and is not UTF-8 text; in both cases whatever the state
    of the font file and of the output path. *)
Theorem X2_input_errors w :
  ((exists w', main w = (Raise FileAccessError, w'))
   <-> files w !! input_file = None \/ input_file ∈ unreadable w)
  /\ ((exists w', main w = (Raise DecodingError, w'))
      <-> exists f, files w !! input_file = Some f
                    /\ (input_file ∉ unreadable w)
                    /\ forall text, f <> Utf8 text).
Proof.
  assert (Hcreate : forall text e w',
             input_text w text -> main w = (Raise e, w') ->
             e <> FileAccessError /\ e <> DecodingError).
  { intros text e w' Ht. rewrite (main_input_text w text Ht).
    destruct (create_pdf_cases (convert_markdown_to_html text) output_file w)
      as [[_ ->]|[(_ & _ & ->)|[(_ & _ & _ & ->)|(_ & _ & _ & doc & ->)]]];
      unfold print; intros [= <-]; split; discriminate. }
  destruct (main_cases w) as [[Hmiss Hrun]|[[Hbad Hrun]|[text Ht]]].
  - split; split.
    + auto.
    + eauto.
    + intros [w' H]. rewrite Hrun in H. discriminate.
    + intros (f & Hf & Hr & _). destruct Hmiss as [Hn|Hu]; [congruence|tauto].
  - split; split.
    + intros [w' H]. rewrite Hrun in H. discriminate.
    + destruct Hbad as (f & Hf & Hr & _). intros [Hn|Hu]; [congruence|tauto].
    + auto.
    + eauto.
  - destruct Ht as [Hin Hread]. split; split.
    + intros [w' H]. destruct (Hcreate text _ _ (conj Hin Hread) H); tauto.
    + intros [Hn|Hu]; [congruence|tauto].
    + intros [w' H]. destruct (Hcreate text _ _ (conj Hin Hread) H); tauto.
    + intros (f & Hf & _ & Hne). rewrite Hin in Hf. inversion Hf; subst.
      exfalso. exact (Hne text eq_refl).
Qed.

(** X3. [create_pdf] checks the font, then the markup, then the output
    path.  It ends with [FontLoadError] exactly when the font file cannot
    be loaded; with [ParserRejectedMarkup] exactly when the font can be
    loaded and the parser rejects the HTML; with [RenderError] exactly
    when the font can be loaded, the HTML is parsed and the output path
    cannot be written; and it succeeds exactly when the font can be
    loaded, the HTML is parsed and the output path can be written. *)
Theorem X3_create_pdf_outcome html path w :
  ((exists w', create_pdf html path w = (Raise FontLoadError, w'))
   <-> ~ font_loadable w)
  /\ ((exists w', create_pdf html path w = (Raise ParserRejectedMarkup, w'))
      <-> font_loadable w /\ BeautifulSoup html = None)
  /\ ((exists w', create_pdf html path w = (Raise RenderError, w'))
      <-> font_loadable w /\ is_Some (BeautifulSoup html)
          /\ path ∈ unwritable w)
  /\ ((exists w', create_pdf html path w = (Ok tt, w'))
      <-> font_loadable w /\ is_Some (BeautifulSoup html)
          /\ (path ∉ unwritable w)).
Proof.
  assert (Hno : BeautifulSoup html = None -> ~ is_Some (BeautifulSoup html)).
  { intros -> [? ?]. discriminate. }
  destruct (create_pdf_cases html path w)
    as [[Hf Hrun]|[(Hf & Hs & Hrun)|[(Hf & Hs & Hp & Hrun)
                                    |(Hf & Hs & Hp & doc & Hrun)]]];
    rewrite Hrun; (split; [|split; [|split]]); split;
    try (intros [w' [=]]); try tauto; eauto;
    try (intros (_ & Hs' & _); exfalso; exact (Hno Hs Hs'));
    try (intros (_ & Hs'); exfalso; exact (Hno Hs' Hs)).
Qed.

(** X4. [main] succeeds exactly when the input file can be read as text,
    the parser accepts the HTML rendered from it, the font can be loaded
    and the output path can be written. *)
Theorem X4_main_succeeds_iff w :
  (exists w', main w = (Ok tt, w'))
  <-> (exists text,
          input_text w text
          /\ is_Some (BeautifulSoup (convert_markdown_to_html text)))
      /\ font_loadable w /\ (output_file ∉ unwritable w).
Proof.
  split.
  - intros [w' Hrun].
    destruct (main_ok_inv w w' Hrun)
      as (face & text & soup & Hin & Hread & (Hf & Hr & Hw) & Hsoup).
    split; [exists text; repeat split; eauto|].
    split; [exists face; auto | exact Hw].
  - intros ((text & [Hin Hread] & [soup Hsoup]) & (face & Hf & Hr) & Hw).
    destruct (main_ok face text soup w Hin Hread) as (doc & H & _);
      [repeat split; assumption | exact Hsoup | eauto].
Qed.

(** X5. After a successful run a second run succeeds as well and leaves
    the files as the first run left them, the input file as it was before
    both; only a second line is printed. *)
Theorem X5_second_run_changes_nothing w w1 :
  main w = (Ok tt, w1) ->
  files w1 !! input_file = files w !! input_file
  /\ exists w2,
      main w1 = (Ok tt, w2)
      /\ files w2 = files w1
      /\ stdout w2
         = stdout w1 ++ ["PDF generated successfully: " +:+ output_file].
Proof.
  intros Hrun.
  destruct (main_ok_inv w w1 Hrun)
    as (face & text & soup & Hin & Hread & (Hf & Hr & Hw) & Hsoup).
  destruct (main_ok face text soup w Hin Hread) as (doc & H & Ht & _);
    [repeat split; assumption | exact Hsoup |].
  rewrite H in Hrun. inversion Hrun; subst w1. clear Hrun.
  assert (Hio : output_file <> input_file) by discriminate.
  assert (Hfo : output_file <> font_path) by discriminate.
  split; [simpl; apply lookup_insert_ne, Hio|].
  destruct (main_ok face text soup
              (printed ("PDF generated successfully: " +:+ output_file)
                 (store output_file doc w)))
    as (doc2 & H2 & Ht2 & _).
  - simpl. rewrite lookup_insert_ne by exact Hio. exact Hin.
  - exact Hread.
  - repeat split; simpl; try assumption.
    rewrite lookup_insert_ne by exact Hfo. exact Hf.
  - exact Hsoup.
  - assert (doc2 = doc) as -> by congruence.
    eexists. split; [exact H2|]. simpl. split; [|reflexivity].
    apply insert_insert_eq.
Qed.

(** X6. When the parsed HTML holds no allow-listed tag, whatever text it
    holds, [create_pdf] stores a document of one page on which nothing is
    drawn. *)
Theorem X6_no_allowed_tag_gives_empty_page face html soup path w :
  usable face path w ->
  BeautifulSoup html = Some soup ->
  find_all allow_list soup = [] ->
  create_pdf html path w = (Ok tt, store path (empty_page face) w).
Proof.
  intros Hw Hsoup Hnone. rewrite (create_pdf_typeset face) by exact Hw.
  unfold typeset, parse. rewrite Hsoup, set_font_loaded.
  - cbn [mbind result_bind]. rewrite Hnone. reflexivity.
  - simpl. rewrite lookup_insert_eq. eauto.
Qed.

Lemma process_element_page n pdf pdf' :
  (forall d h text, page_breaks d h text = 0%nat) ->
  process_element n pdf = Ok pdf' -> page pdf' = page pdf.
Proof.
  intros Hnb. unfold process_element, set_font, multi_cell, cell.
  repeat (lazymatch goal with
          | |- context [if ?b then _ else _] => destruct b
          end; cbn [mbind result_bind]);
    intros [= <-]; simpl; rewrite ?Hnb; lia.
Qed.

Lemma for_each_page es : forall pdf pdf',
  (forall d h text, page_breaks d h text = 0%nat) ->
  for_each es pdf = Ok pdf' -> page pdf' = page pdf.
Proof.
  induction es as [|n es IH]; intros pdf pdf' Hnb; cbn [for_each].
  - intros [= <-]. reflexivity.
  - destruct (process_element n pdf) as [pdf1|e] eqn:H1; [|discriminate].
    cbn [mbind result_bind]. intros H2.
    rewrite (IH _ _ Hnb H2). exact (process_element_page _ _ _ Hnb H1).
Qed.

(** X7. When the library makes no automatic page break, the document
    [create_pdf] stores has exactly one page: the program itself adds no
    page after the first. *)
Theorem X7_one_page_without_automatic_breaks face html soup path w :
  (forall d h text, page_breaks d h text = 0%nat) ->
  usable face path w ->
  BeautifulSoup html = Some soup ->
  exists doc, create_pdf html path w = (Ok tt, store path doc w)
    /\ page doc = 1%nat.
Proof.
  intros Hnb Hw Hsoup.
  destruct (create_pdf_ok face html soup path w Hw Hsoup)
    as (doc & H & Ht & _).
  exists doc. split; [exact H|].
  unfold typeset, parse in Ht. rewrite Hsoup, set_font_loaded in Ht.
  - cbn [mbind result_bind] in Ht. rewrite (for_each_page _ _ _ Hnb Ht).
    reflexivity.
  - simpl. rewrite lookup_insert_eq. eauto.
Qed.

(** X8. Every text block is drawn over the full width in 'DejaVu', with
    line height 8 when its size is 10 (code) and 10 otherwise. *)
Theorem X8_text_block_geometry face html soup path w :
  usable face path w ->
  BeautifulSoup html = Some soup ->
  exists doc, create_pdf html path w = (Ok tt, store path doc w)
    /\ Forall full_width (canvas doc).
Proof.
  intros Hw Hsoup.
  destruct (create_pdf_ok face html soup path w Hw Hsoup)
    as (doc & H & _ & Hc & _).
  exists doc. split; [exact H|]. rewrite Hc. apply Forall_app. split.
  - repeat constructor.
  - apply element_ops_Forall. intros k text. repeat split.
    destruct k; simpl; first [left; split; [reflexivity|reflexivity]
                             | right; split; [discriminate|reflexivity]].
Qed.

(** *** Trimming *)

Lemma lstrip_blank s : exists pre, s = pre ++ lstrip s /\ blank pre.
Proof.
  induction s as [|c s (pre & Hs & Hpre)];
    [exists []; split; [reflexivity|constructor]|].
  cbn [lstrip]. destruct (isspace c) eqn:Hc.
  - exists (c :: pre). split; [simpl; congruence | constructor; assumption].
  - exists []. split; [reflexivity | constructor].
Qed.

Lemma lstrip_head s c : head (lstrip s) = Some c -> isspace c = false.
Proof.
  induction s as [|a s IH]; [discriminate|].
  cbn [lstrip]. destruct (isspace a) eqn:Ha; [exact IH|].
  intros [= <-]. exact Ha.
Qed.

Lemma last_rev (s : str) : last (rev s) = head s.
Proof. destruct s as [|a s]; [reflexivity|]. simpl. apply last_snoc. Qed.

Lemma blank_rev s : blank s -> blank (rev s).
Proof.
  unfold blank. rewrite !List.Forall_forall. intros H c Hc.
  apply H, in_rev, Hc.
Qed.

Lemma rstrip_blank s : exists post, s = rstrip s ++ post /\ blank post.
Proof.
  destruct (lstrip_blank (rev s)) as (pre & Hs & Hpre).
  exists (rev pre). split; [|apply blank_rev, Hpre].
  unfold rstrip. rewrite <- rev_app_distr, <- Hs, rev_involutive. reflexivity.
Qed.

Lemma strip_trim_of s : trim_of s (strip s).
Proof.
  destruct (lstrip_blank s) as (pre & Hs & Hpre).
  destruct (rstrip_blank (lstrip s)) as (post & Ht & Hpost).
  exists pre, post. split; [|split; assumption].
  unfold strip. rewrite <- Ht. exact Hs.
Qed.

Lemma strip_trimmed s : trimmed (strip s).
Proof.
  unfold trimmed, strip. split; intros c Hc.
  - destruct (rstrip_blank (lstrip s)) as (post & Ht & _).
    apply (lstrip_head s). rewrite Ht.
    destruct (rstrip (lstrip s)) as [|a t]; [discriminate|exact Hc].
  - unfold rstrip in Hc. rewrite last_rev in Hc.
    exact (lstrip_head _ _ Hc).
Qed.

Lemma find_all_allowed soup :
  Forall (fun n => exists k, element_of n = Some (k, strip (get_text n)))
    (find_all allow_list soup).
Proof.
  apply List.Forall_forall. intros n Hn.
  apply filter_In in Hn as [_ Hn].
  rewrite name_in_allow_list in Hn. apply bool_decide_eq_true in Hn.
  destruct n as [s|s|name contents]; try (destruct Hn; discriminate).
  simpl in *.
  destruct (classify name) as [k|]; [eauto | destruct Hn; discriminate].
Qed.

Lemma blocks_of_allowed (R : node -> text_block -> Prop) es :
  Forall (fun n => exists k, element_of n = Some (k, strip (get_text n))) es ->
  (forall n k, R n (table_block (k, strip (get_text n)))) ->
  Forall2 R es (List.map table_block (omap element_of es)).
Proof.
  intros Hes HR. induction Hes as [|n es [k Hn] _ IH]; [constructor|].
  rewrite omap_cons', Hn. simpl. constructor; [apply HR | exact IH].
Qed.

(** X9. There is one text block for each allow-listed tag of the parsed
    HTML, in the order [find_all] gives them, also for a tag without text;
    the block's text is the tag's flattened text with whitespace removed
    at its two ends and nowhere else, and it neither starts nor ends with
    whitespace. *)
Theorem X9_block_text_is_trimmed_tag_text face html soup path w :
  usable face path w ->
  BeautifulSoup html = Some soup ->
  exists doc, create_pdf html path w = (Ok tt, store path doc w)
    /\ Forall2 (fun n b => trim_of (get_text n) (b_text b)
                           /\ trimmed (b_text b))
         (find_all allow_list soup) (blocks (canvas doc)).
Proof.
  intros Hw Hsoup.
  destruct (create_pdf_blocks face html soup path w Hw Hsoup)
    as (doc & H & Hb).
  exists doc. split; [exact H|]. rewrite Hb.
  apply blocks_of_allowed; [apply find_all_allowed|].
  intros n k. split; [apply strip_trim_of | apply strip_trimmed].
Qed.

(** *** The loop and the layout table *)

Lemma process_element_table n pdf :
  process_element n pdf
  = match element_of n with
    | Some e => draw_element e pdf
    | None => Ok pdf
    end.
Proof.
  destruct n as [s|s|name contents]; try reflexivity.
  unfold process_element, draw_element, element_of, classify.
  cbn [name_of existsb orb].
  repeat lazymatch goal with
  | |- context [String.eqb name ?t] =>
      let E := fresh "E" in
      destruct (String.eqb name t) eqn:E;
      [ apply String.eqb_eq in E; subst name; cbn [orb fst snd];
        destruct (set_font "DejaVu" _ pdf); reflexivity
      | cbn [orb] ]
  end.
  reflexivity.
Qed.

Lemma for_each_table es : forall pdf,
  for_each es pdf = draw_all (omap element_of es) pdf.
Proof.
  induction es as [|n es IH]; intros pdf; [reflexivity|].
  cbn [for_each]. rewrite omap_cons', process_element_table.
  destruct (element_of n) as [e|]; cbn [draw_all mbind result_bind].
  - destruct (draw_element e pdf); [apply IH | reflexivity].
  - apply IH.
Qed.

Lemma typeset_table face html :
  typeset face html
  = pdf ← set_font "DejaVu" 12 (add_page (loaded face));
    soup ← parse html;
    draw_all (elements soup) pdf.
Proof.
  unfold typeset, elements.
  destruct (set_font "DejaVu" 12 _); [|reflexivity].
  cbn [mbind result_bind].
  destruct (parse html); [apply for_each_table | reflexivity].
Qed.

(** *** Tags outside the allow-list *)

Lemma unwrap_is_tag n n' :
  unwrap n n' -> exists r cs cs', n = Tag r cs /\ n' = Tag r cs'.
Proof. destruct 1; eauto. Qed.

Lemma unwrap_same n n' :
  unwrap n n' ->
  get_text n = get_text n'
  /\ flat_map document_order (contents_of n)
     = flat_map document_order (contents_of n').
Proof.
  induction 1 as [r pre name cs post Hname | r pre c c' post Hu [IHt IHd]];
    cbn [get_text contents_of]; rewrite !flat_map_app; cbn [flat_map].
  - split.
    + reflexivity.
    + cbn [document_order element_of]. rewrite Hname. reflexivity.
  - split; [rewrite IHt; reflexivity|].
    destruct (unwrap_is_tag _ _ Hu) as (q & cs & cs' & -> & ->).
    cbn [document_order element_of contents_of] in *.
    rewrite IHt, IHd. reflexivity.
Qed.

(** X10. A tag outside the allow-list is transparent: taking such a tag
    away at any depth, its children left in its place, changes nothing in
    what [create_pdf] does. *)
Theorem X10_tags_outside_allow_list_are_transparent
    html1 html2 soup1 soup2 path w :
  BeautifulSoup html1 = Some soup1 ->
  BeautifulSoup html2 = Some soup2 ->
  unwrap soup1 soup2 ->
  create_pdf html1 path w = create_pdf html2 path w.
Proof.
  intros H1 H2 Hu. rewrite !create_pdf_outcome.
  destruct (files w !! font_path) as [[text| |face|doc]|]; try reflexivity.
  rewrite !typeset_table. unfold parse. rewrite H1, H2.
  destruct (set_font "DejaVu" 12 _) as [pdf|e]; [|reflexivity].
  cbn [mbind result_bind].
  rewrite !elements_document_order, (proj2 (unwrap_same _ _ Hu)).
  reflexivity.
Qed.

(** X11. From every document state, also one without the font or without
    a page, the loop of [create_pdf] over any nodes does what the layout
    table says for the element records of the allow-listed tags among
    them: the same document, or the same exception at the same element.
    The dispatch on tag names and a dispatch on element kinds are
    interchangeable. *)
Theorem X11_loop_is_the_layout_table es pdf :
  for_each es pdf = draw_all (omap element_of es) pdf.
Proof.
  revert pdf. induction es as [|n es IH]; intros pdf; [reflexivity|].
  cbn [for_each]. rewrite omap_cons', process_element_table.
  destruct (element_of n) as [e|]; cbn [draw_all mbind result_bind].
  - destruct (draw_element e pdf) as [pdf1|err]; [apply IH | reflexivity].
  - apply IH.
Qed.

(** *** Nested tags *)

Lemma descendants_occurrence m s :
  In m (descendants s) ->
  exists l1 l2, descendants s = l1 ++ m :: descendants m ++ l2.
Proof.
  induction s as [t|t|r cs IH] using node_ind'; try (intros []).
  cbn [descendants]. intros Hm.
  apply in_flat_map in Hm as (c & Hc & Hm).
  apply in_split in Hc as (a & b & ->).
  rewrite flat_map_app. cbn [flat_map].
  apply Forall_app in IH as [_ IH]. apply Forall_cons in IH as [IHc _].
  destruct Hm as [<-|Hm].
  - eexists _, _. rewrite <- app_comm_cons. reflexivity.
  - destruct (IHc Hm) as (l1 & l2 & ->).
    exists (flat_map (fun c => c :: descendants c) a ++ c :: l1),
           (l2 ++ flat_map (fun c => c :: descendants c) b).
    repeat first [rewrite <- app_assoc | rewrite <- app_comm_cons].
    reflexivity.
Qed.

Lemma descendants_text n m :
  In n (descendants m) ->
  exists pre post, get_text m = pre ++ get_text n ++ post.
Proof.
  induction m as [t|t|r cs IH] using node_ind'; try (intros []).
  cbn [descendants get_text]. intros Hn.
  apply in_flat_map in Hn as (c & Hc & Hn).
  apply in_split in Hc as (a & b & ->).
  rewrite flat_map_app. cbn [flat_map].
  apply Forall_app in IH as [_ IH]. apply Forall_cons in IH as [IHc _].
  destruct Hn as [<-|Hn].
  - eauto.
  - destruct (IHc Hn) as (pre & post & ->).
    exists (flat_map get_text a ++ pre), (post ++ flat_map get_text b).
    rewrite <- !app_assoc. reflexivity.
Qed.

Lemma element_of_text n e : element_of n = Some e -> snd e = strip (get_text n).
Proof.
  destruct n as [t|t|name cs]; try discriminate.
  cbn [element_of]. destruct (classify name); intros [= <-]; reflexivity.
Qed.

(** X12. When an allow-listed tag lies below another allow-listed tag, each
    of the two gets a text block of its own, the outer one first, and the
    inner tag's text is part of the outer tag's text: what the inner tag
    holds is drawn twice. *)
Theorem X12_nested_allowed_tags_are_drawn_twice face html soup path w m n :
  usable face path w ->
  BeautifulSoup html = Some soup ->
  In m (descendants soup) ->
  In n (descendants m) ->
  is_Some (element_of m) ->
  is_Some (element_of n) ->
  exists doc i j bm bn,
    create_pdf html path w = (Ok tt, store path doc w)
    /\ (i < j)%nat
    /\ blocks (canvas doc) !! i = Some bm
    /\ blocks (canvas doc) !! j = Some bn
    /\ b_text bm = strip (get_text m)
    /\ b_text bn = strip (get_text n)
    /\ exists pre post, get_text m = pre ++ get_text n ++ post.
Proof.
  intros Hw Hsoup Hm Hn [em Hem] [en Hen].
  destruct (create_pdf_blocks face html soup path w Hw Hsoup)
    as (doc & H & Hb).
  destruct (descendants_occurrence _ _ Hm) as (l1 & l2 & Hd).
  destruct (in_split _ _ Hn) as (a & b & Ha).
  assert (Hpm : name_in allow_list m = true).
  { rewrite name_in_allow_list. apply bool_decide_eq_true_2. eauto. }
  assert (Hpn : name_in allow_list n = true).
  { rewrite name_in_allow_list. apply bool_decide_eq_true_2. eauto. }
  set (F := fun l => List.map table_block
                       (omap element_of (List.filter (name_in allow_list) l))).
  assert (Hblocks : blocks (canvas doc)
                    = (F l1 ++ table_block em :: F a)
                      ++ table_block en :: F b ++ F l2).
  { rewrite Hb. unfold elements, find_all. rewrite Hd, Ha. unfold F.
    repeat first [ rewrite List.filter_app | progress cbn [List.filter]
                 | rewrite Hpm | rewrite Hpn ].
    repeat first [ rewrite omap_app | rewrite omap_cons', Hem
                 | rewrite omap_cons', Hen | rewrite List.map_app
                 | progress cbn [List.map] ].
    repeat first [rewrite <- app_assoc | rewrite <- app_comm_cons].
    reflexivity. }
  exists doc, (length (F l1)), (length (F l1 ++ table_block em :: F a)),
         (table_block em), (table_block en).
  split; [exact H|]. split; [rewrite length_app; simpl; lia|].
  rewrite Hblocks. split; [|split; [|split; [|split]]].
  - rewrite <- app_assoc. apply list_lookup_middle. reflexivity.
  - apply list_lookup_middle. reflexivity.
  - apply (element_of_text _ _ Hem).
  - apply (element_of_text _ _ Hen).
  - apply descendants_text, Hn.
Qed.

End Pipeline.

(** ** Two runs *)







(** ** The claims on the sample inputs *)

Ltac sample_usable :=
  split; [vm_compute; reflexivity | split];
  [ cbv [Samples.bare Samples.disk unreadable]; apply not_elem_of_empty
  | cbv [Samples.bare Samples.disk unwritable]; apply not_elem_of_empty ].

Lemma C1_nested_code_drawn_twice_witness :
  usable 1 "out.pdf" Samples.bare
  /\ exists doc,
      create_pdf Reference.BeautifulSoup Reference.page_breaks
        Samples.code_html "out.pdf" Samples.bare
      = (Ok tt, store "out.pdf" doc Samples.bare)
      /\ List.map b_text (blocks (canvas doc)) = [py "print(1)"; py "print(1)"].
Proof.
  assert (Hw : usable 1 "out.pdf" Samples.bare) by sample_usable.
  split; [exact Hw|].
  destruct (proj1 (C1_nested_code_drawn_twice Reference.BeautifulSoup
                     Reference.page_breaks 1%N Samples.code_html "out.pdf"
                     Samples.bare Hw))
    as (doc & H & Hb); [vm_compute; reflexivity|].
  exists doc. split; [exact H|]. rewrite Hb. reflexivity.
Defined.

Lemma C2_title_scenario_witness :
  exists doc,
    main Reference.markdown Reference.BeautifulSoup Reference.page_breaks
      (Samples.disk Samples.title_md)
    = (Ok tt, printed ("PDF generated successfully: " +:+ output_file)
                (store output_file doc (Samples.disk Samples.title_md)))
    /\ List.map b_prefix (blocks (canvas doc))
       = [None; None; Some (5, [226; 8364; 162]%N);
          Some (5, [226; 8364; 162]%N)].
Proof.
  destruct (C2_title_scenario Reference.markdown Reference.BeautifulSoup
              Reference.page_breaks 1%N (Samples.disk Samples.title_md))
    as (_ & (doc & H & Hb) & _).
  - vm_compute; reflexivity.
  - vm_compute; reflexivity.
  - vm_compute; reflexivity.
  - cbv [Samples.disk unreadable]; apply not_elem_of_empty.
  - sample_usable.
  - exists doc. split; [exact H|]. rewrite Hb. reflexivity.
Defined.

Lemma C3_blocks_in_document_order_witness :
  exists doc,
    create_pdf Reference.BeautifulSoup Reference.page_breaks
      Samples.title_html "out.pdf" Samples.bare
    = (Ok tt, store "out.pdf" doc Samples.bare)
    /\ List.map b_text (blocks (canvas doc))
       = [py "Title"; py "Some text."; py "item one"; py "item two"].
Proof.
  destruct (C3_blocks_in_document_order Reference.BeautifulSoup
              Reference.page_breaks 1%N Samples.title_html
              Samples.title_soup "out.pdf" Samples.bare)
    as (doc & H & Hb & _); [sample_usable | vm_compute; reflexivity |].
  exists doc. split; [exact H|]. rewrite Hb. vm_compute. reflexivity.
Defined.

Lemma C4_font_size_by_kind_witness :
  exists doc,
    create_pdf Reference.BeautifulSoup Reference.page_breaks
      Samples.title_html "out.pdf" Samples.bare
    = (Ok tt, store "out.pdf" doc Samples.bare)
    /\ List.map b_size (blocks (canvas doc)) = [16; 12; 12; 12].
Proof.
  destruct (C4_font_size_by_kind Reference.BeautifulSoup
              Reference.page_breaks 1%N Samples.title_html
              Samples.title_soup "out.pdf" Samples.bare)
    as (doc & H & Hb & _); [sample_usable | vm_compute; reflexivity |].
  exists doc. split; [exact H|].
  apply Forall2_map_eq in Hb. rewrite Hb. vm_compute. reflexivity.
Defined.

Lemma C5_spacing_by_kind_witness :
  exists doc,
    create_pdf Reference.BeautifulSoup Reference.page_breaks
      Samples.title_html "out.pdf" Samples.bare
    = (Ok tt, store "out.pdf" doc Samples.bare)
    /\ List.map b_spacing (blocks (canvas doc))
       = [Some 10; Some 5; Some 2; Some 2].
Proof.
  destruct (C5_spacing_by_kind Reference.BeautifulSoup
              Reference.page_breaks 1%N Samples.title_html
              Samples.title_soup "out.pdf" Samples.bare)
    as (doc & H & Hb); [sample_usable | vm_compute; reflexivity |].
  exists doc. split; [exact H|].
  apply Forall2_map_eq in Hb. rewrite Hb. vm_compute. reflexivity.
Defined.

Lemma C6_bullet_only_before_list_items_witness :
  exists doc,
    create_pdf Reference.BeautifulSoup Reference.page_breaks
      Samples.title_html "out.pdf" Samples.bare
    = (Ok tt, store "out.pdf" doc Samples.bare)
    /\ List.map b_prefix (blocks (canvas doc))
       = [None; None; Some (5, [226; 8364; 162]%N);
          Some (5, [226; 8364; 162]%N)].
Proof.
  destruct (C6_bullet_only_before_list_items Reference.BeautifulSoup
              Reference.page_breaks 1%N Samples.title_html
              Samples.title_soup "out.pdf" Samples.bare)
    as (doc & H & Hb & _); [sample_usable | vm_compute; reflexivity |].
  exists doc. split; [exact H|].
  apply Forall2_map_eq in Hb. rewrite Hb. vm_compute. reflexivity.
Defined.

Lemma C7_failure_leaves_no_output_witness :
  main Reference.markdown Reference.BeautifulSoup Reference.page_breaks
    Samples.bare
  = (Raise FileAccessError, Samples.bare).
Proof.
  apply (proj1 (C7_failure_leaves_no_output Reference.markdown
                  Reference.BeautifulSoup Reference.page_breaks
                  Samples.bare)).
  vm_compute. reflexivity.
Defined.

Lemma C8_one_document_with_a_page_witness :
  exists w',
    main Reference.markdown Reference.BeautifulSoup Reference.page_breaks
      (Samples.disk []) = (Ok tt, w').
Proof.
  apply (proj1 (C8_one_document_with_a_page Reference.markdown
                  Reference.BeautifulSoup Reference.page_breaks
                  (Samples.disk [])) 1%N [] (Tag "[document]" [])).
  - vm_compute; reflexivity.
  - cbv [Samples.disk unreadable]; apply not_elem_of_empty.
  - sample_usable.
  - vm_compute; reflexivity.
Defined.


Lemma C10_font_set_per_element_witness :
  exists pdf1 pdf1',
    for_each Reference.page_breaks [Samples.heading; Samples.item]
      Samples.fresh = Ok pdf1
    /\ for_each Reference.page_breaks [Samples.item; Samples.heading]
         Samples.busy = Ok pdf1'
    /\ List.map b_size (blocks (drawn_since Samples.fresh pdf1)) = [14; 12]
    /\ List.map b_size (blocks (drawn_since Samples.busy pdf1')) = [12; 14].
Proof.
  destruct (C10_font_set_per_element Reference.page_breaks
              [Samples.heading; Samples.item] [Samples.item; Samples.heading]
              Samples.fresh Samples.busy)
    as (pdf1 & pdf1' & H1 & H1' & Hb & _).
  - exists 1%N. vm_compute. reflexivity.
  - vm_compute. discriminate.
  - exists 7%N. vm_compute. reflexivity.
  - vm_compute. discriminate.
  - apply perm_swap.
  - exists pdf1, pdf1'. split; [exact H1|]. split; [exact H1'|].
    rewrite Hb. split; [reflexivity|].
    vm_compute in H1'. inversion H1'. reflexivity.
Defined.

(** ** The further properties on the sample inputs *)

Lemma X5_second_run_changes_nothing_witness :
  exists w1 w2,
    main Reference.markdown Reference.BeautifulSoup Reference.page_breaks
      (Samples.disk Samples.title_md) = (Ok tt, w1)
    /\ main Reference.markdown Reference.BeautifulSoup Reference.page_breaks
         w1
       = (Ok tt, w2)
    /\ files w2 = files w1.
Proof.
  destruct (main_ok Reference.markdown Reference.BeautifulSoup
              Reference.page_breaks 1%N Samples.title_md Samples.title_soup
              (Samples.disk Samples.title_md)) as (doc & H & _).
  - vm_compute; reflexivity.
  - cbv [Samples.disk unreadable]; apply not_elem_of_empty.
  - sample_usable.
  - vm_compute; reflexivity.
  - destruct (X5_second_run_changes_nothing Reference.markdown
                Reference.BeautifulSoup Reference.page_breaks _ _ H)
      as (_ & w2 & H2 & Hf & _).
    eexists _, w2. split; [exact H|]. split; [exact H2 | exact Hf].
Defined.

Lemma X6_no_allowed_tag_gives_empty_page_witness :
  create_pdf Reference.BeautifulSoup Reference.page_breaks
    (py "<h4>Deep</h4>") "out.pdf" Samples.bare
  = (Ok tt, store "out.pdf" (empty_page 1) Samples.bare).
Proof.
  apply (X6_no_allowed_tag_gives_empty_page Reference.BeautifulSoup
           Reference.page_breaks 1%N (py "<h4>Deep</h4>")
           (Tag "[document]" [Tag "h4" [NavigableString (py "Deep")]])).
  - sample_usable.
  - vm_compute. reflexivity.
  - vm_compute. reflexivity.
Defined.

Lemma X7_one_page_without_automatic_breaks_witness :
  exists doc,
    create_pdf Reference.BeautifulSoup (fun _ _ _ => 0%nat)
      Samples.title_html "out.pdf" Samples.bare
    = (Ok tt, store "out.pdf" doc Samples.bare)
    /\ page doc = 1%nat.
Proof.
  apply (X7_one_page_without_automatic_breaks Reference.BeautifulSoup
           (fun _ _ _ => 0%nat) 1%N Samples.title_html Samples.title_soup).
  - reflexivity.
  - sample_usable.
  - vm_compute. reflexivity.
Defined.

Lemma X8_text_block_geometry_witness :
  exists doc,
    create_pdf Reference.BeautifulSoup Reference.page_breaks
      Samples.code_html "out.pdf" Samples.bare
    = (Ok tt, store "out.pdf" doc Samples.bare)
    /\ Forall full_width (canvas doc).
Proof.
  apply (X8_text_block_geometry Reference.BeautifulSoup
           Reference.page_breaks 1%N Samples.code_html Samples.code_soup).
  - sample_usable.
  - vm_compute. reflexivity.
Defined.

Lemma X9_block_text_is_trimmed_tag_text_witness :
  exists doc,
    create_pdf Reference.BeautifulSoup Reference.page_breaks
      (py "<h2> Usage </h2>") "out.pdf" Samples.bare
    = (Ok tt, store "out.pdf" doc Samples.bare)
    /\ Forall2 (fun n b => trim_of (get_text n) (b_text b)
                           /\ trimmed (b_text b))
         [Samples.heading] (blocks (canvas doc)).
Proof.
  apply (X9_block_text_is_trimmed_tag_text Reference.BeautifulSoup
           Reference.page_breaks 1%N (py "<h2> Usage </h2>")
           (Tag "[document]" [Samples.heading])).
  - sample_usable.
  - vm_compute. reflexivity.
Defined.

Lemma X10_tags_outside_allow_list_are_transparent_witness :
  create_pdf Reference.BeautifulSoup Reference.page_breaks
    (py "<ul><li>first</li></ul>") "out.pdf" Samples.bare
  = create_pdf Reference.BeautifulSoup Reference.page_breaks
      (py "<li>first</li>") "out.pdf" Samples.bare.
Proof.
  apply (X10_tags_outside_allow_list_are_transparent
           Reference.BeautifulSoup Reference.page_breaks
           (py "<ul><li>first</li></ul>") (py "<li>first</li>")
           (Tag "[document]" [Tag "ul" [Samples.item]])
           (Tag "[document]" [Samples.item])).
  - vm_compute. reflexivity.
  - vm_compute. reflexivity.
  - apply (unwrap_here "[document]" [] "ul" [Samples.item] []).
    reflexivity.
Defined.

Lemma X12_nested_allowed_tags_are_drawn_twice_witness :
  exists doc i j bm bn,
    create_pdf Reference.BeautifulSoup Reference.page_breaks
      Samples.code_html "out.pdf" Samples.bare
    = (Ok tt, store "out.pdf" doc Samples.bare)
    /\ (i < j)%nat
    /\ blocks (canvas doc) !! i = Some bm
    /\ blocks (canvas doc) !! j = Some bn
    /\ b_text bm = py "print(1)"
    /\ b_text bn = py "print(1)".
Proof.
  destruct (X12_nested_allowed_tags_are_drawn_twice Reference.BeautifulSoup
              Reference.page_breaks 1%N Samples.code_html Samples.code_soup
              "out.pdf" Samples.bare
              (Tag "pre"
                 [Tag "code" [NavigableString (py "print(1)" ++ [10%N])]])
              (Tag "code" [NavigableString (py "print(1)" ++ [10%N])]))
    as (doc & i & j & bm & bn & H & Hij & Hi & Hj & Hm & Hn & _).
  - sample_usable.
  - vm_compute. reflexivity.
  - vm_compute. left. reflexivity.
  - vm_compute. left. reflexivity.
  - eexists. reflexivity.
  - eexists. reflexivity.
  - exists doc, i, j, bm, bn. repeat split; assumption.
Defined.
